(** * react-native-text-measure: the option-normalisation and adapter layer

    A shallow embedding of the three parts of the package

    - [index.js]                         the JS facade ([sanitize], [measureText], [measureTextSync]),
    - [ReactNativeTextMeasureModule.java] the Android adapter over [StaticLayout],
    - [ReactNativeTextMeasure.m]          the iOS adapter over TextKit,

    and the properties the specification states about them.

    Conventions of the model.

    - Java [float], Objective-C [CGFloat] and JS numbers are modelled by the
      rational they denote ([Q]); comparisons are the ones the source
      writes.  The arithmetic of the model is exact, whereas Java rounds
      every [float] operation (and the narrowing [(float) double]) to
      binary32: where a property depends on such a result being exact, it
      assumes, through [binary32], that the operands and the result are
      values of a [float], for which the two agree.  NaN and the infinities
      are not values of the model.
    - Java [int] is a [Z]; the places where the source narrows to [int]
      ([Math.round], [Integer.parseInt], [ReadableMap.getInt]) write the
      saturation or the range check out.
    - Exceptions are explicit: a computation that may throw returns a
      [result], [try]/[catch] is [try_catch].
    - The native text engines (font lookup, font metrics, line layout) are
      external to the package; each adapter is parameterised by a record of
      the engine operations it calls. *)

From Stdlib Require Import ZArith QArith Qround String Ascii List Sorted Lia.
From stdpp Require Import base option list gmap strings.

Local Open Scope string_scope.
Local Open Scope Z_scope.

(** ** Exceptions *)

(** A thrown [java.lang.Exception] or [NSException]; [getMessage] is the
    nullable [e.getMessage()] / [exception.reason]. *)
Record Exception : Type := mkException { getMessage : option string }.

Inductive result (A : Type) : Type :=
| OK (a : A)
| Throw (e : Exception).
Arguments OK {A} a.
Arguments Throw {A} e.

Global Instance result_ret : MRet result := λ A a, OK a.
Global Instance result_bind : MBind result := λ A B k c,
  match c with
  | OK a => k a
  | Throw e => Throw e
  end.

(** [try { c } catch (Exception e) { h e }] *)
Definition try_catch {A : Type} (c : result A) (h : Exception → result A) : result A :=
  match c with
  | OK a => OK a
  | Throw e => h e
  end.

Definition throw_msg {A : Type} (m : string) : result A :=
  Throw (mkException (Some m)).

(** ** Numbers *)

Definition Qgtb (x y : Q) : bool := negb (Qle_bool x y).
Definition Qgeb (x y : Q) : bool := Qle_bool y x.
Definition Qnonzero (x : Q) : bool := negb (Qeq_bool x 0).

Definition Integer_MAX_VALUE : Z := 2147483647.
Definition Integer_MIN_VALUE : Z := -2147483648.

(** Narrowing of a mathematical integer to [int] as Java's float-to-int
    conversions do it: out-of-range values saturate. *)
Definition saturate_int (z : Z) : Z :=
  if z <? Integer_MIN_VALUE then Integer_MIN_VALUE
  else if Integer_MAX_VALUE <? z then Integer_MAX_VALUE
  else z.

(** [Math.round(float)]: floor (x + 1/2), saturated to [int]. *)
Definition Math_round (x : Q) : Z := saturate_int (Qfloor (x + (1 # 2))).

(** [(int) x] for a floating value: truncation toward zero, saturated. *)
Definition int_of_double (x : Q) : Z :=
  saturate_int (if Qle_bool 0 x then Qfloor x else Qceiling x).

(** C [ceil] on a [CGFloat]. *)
Definition ceil (x : Q) : Q := inject_Z (Qceiling x).


(** ** Strings *)

Definition ascii_lower (c : ascii) : ascii :=
  let n := nat_of_ascii c in
  if ((65 <=? n) && (n <=? 90))%nat then ascii_of_nat (n + 32) else c.

Fixpoint equalsIgnoreCase (a b : string) : bool :=
  match a, b with
  | EmptyString, EmptyString => true
  | String x a', String y b' =>
      Ascii.eqb (ascii_lower x) (ascii_lower y) && equalsIgnoreCase a' b'
  | _, _ => false
  end.

Definition is_space (c : ascii) : bool := (nat_of_ascii c <=? 32)%nat.

Fixpoint trim_left (s : string) : string :=
  match s with
  | String c s' => if is_space c then trim_left s' else s
  | EmptyString => EmptyString
  end.

Fixpoint trim_right (s : string) : string :=
  match s with
  | EmptyString => EmptyString
  | String c s' =>
      match trim_right s' with
      | EmptyString => if is_space c then EmptyString else String c EmptyString
      | t => String c t
      end
  end.

(** [String.trim()]: drops leading and trailing characters up to U+0020. *)
Definition trim (s : string) : string := trim_right (trim_left s).

Definition digit_of (c : ascii) : option Z :=
  let n := nat_of_ascii c in
  if ((48 <=? n) && (n <=? 57))%nat then Some (Z.of_nat n - 48) else None.

Fixpoint parse_digits (s : string) (acc : Z) : option Z :=
  match s with
  | EmptyString => Some acc
  | String c s' =>
      match digit_of c with
      | Some d => parse_digits s' (10 * acc + d)
      | None => None
      end
  end.

(** [Integer.parseInt(s)]: an optional sign, then one or more decimal
    digits, the value within [int]; anything else raises
    [NumberFormatException].  [None] stands for that exception. *)
Definition Integer_parseInt (s : string) : option Z :=
  let signed :=
    match s with
    | String "-" rest => (true, rest)
    | String "+" rest => (false, rest)
    | _ => (false, s)
    end in
  match signed.2 with
  | EmptyString => None
  | digits =>
      match parse_digits digits 0 with
      | Some n =>
          let v := if signed.1 then - n else n in
          if (Integer_MIN_VALUE <=? v) && (v <=? Integer_MAX_VALUE)
          then Some v else None
      | None => None
      end
  end.

(** ** Values crossing the bridge *)

(** A JS value as it can appear in the options object.  An array carries
    its elements, a nested object its own enumerable entries. *)
#[warning="-register-all"] Inductive JsValue : Type :=
| JsUndefined
| JsNull
| JsBoolean (b : bool)
| JsNumber (x : Q)
| JsString (s : string)
| JsArray (items : list JsValue)
| JsObject (entries : list (string * JsValue)).

(** A bridged value: what a [ReadableMap] / [NSDictionary] holds, one
    constructor for each [ReadableType] ([NSNull], [NSNumber] for booleans
    and numbers, [NSString], [NSArray], [NSDictionary]). *)
#[warning="-register-all"] Inductive Dynamic : Type :=
| DynNull
| DynBoolean (b : bool)
| DynNumber (x : Q)
| DynString (s : string)
| DynArray (items : list Dynamic)
| DynMap (entries : list (string * Dynamic)).

(** The marshalling of one JS value.  An [undefined] property does not
    survive serialisation ([undefined] inside an array arrives as null);
    [null] arrives as the native null. *)
Fixpoint to_native (v : JsValue) : option Dynamic :=
  match v with
  | JsUndefined => None
  | JsNull => Some DynNull
  | JsBoolean b => Some (DynBoolean b)
  | JsNumber x => Some (DynNumber x)
  | JsString s => Some (DynString s)
  | JsArray items =>
      Some (DynArray (map (λ item, default DynNull (to_native item)) items))
  | JsObject entries =>
      Some (DynMap (omap (λ entry, (λ d, (entry.1, d)) <$> to_native entry.2)
                         entries))
  end.

Definition bridge (o : gmap string JsValue) : gmap string Dynamic :=
  omap to_native o.

(** ** Vocabulary of the specification *)

(** The fallback chain as the specification words it: an ordered list of
    resolvers, the first non-null result wins, the platform default closes
    the list. *)
Fixpoint first_success {A : Type} (candidates : list (option A)) (fallback : A)
  : A :=
  match candidates with
  | [] => fallback
  | Some a :: _ => a
  | None :: rest => first_success rest fallback
  end.

(** A resolver that throws counts as one that found nothing. *)
Definition found {A : Type} (c : result (option A)) : option A :=
  match c with
  | OK r => r
  | Throw _ => None
  end.

(** The numeric font weights of a StyleConfig, as the strings the options
    carry and as numbers. *)
Definition numeric_weights : list (string * Z) :=
  [ ("100", 100); ("200", 200); ("300", 300); ("400", 400); ("500", 500);
    ("600", 600); ("700", 700); ("800", 800); ("900", 900) ]%string.

(** A dimension option that asks for no bound: left out, null, or the
    number 0. *)
Definition zero_or_absent (v : option Dynamic) : Prop :=
  match v with
  | None | Some DynNull => True
  | Some (DynNumber x) => (x == 0)%Q
  | Some _ => False
  end.

(** ** index.js *)

Module JS.

(** An option the caller left out: no such key, or [undefined], or
    [null]. *)
Definition absent (value : option JsValue) : bool :=
  match value with
  | None | Some JsUndefined | Some JsNull => true
  | Some _ => false
  end.

(** [value !== undefined && value !== null] *)
Definition present (value : JsValue) : bool :=
  match value with
  | JsUndefined | JsNull => false
  | _ => true
  end.

(** [out[key] = value] on the plain object [out].  The key [__proto__]
    is not stored: on a plain object that assignment runs the accessor
    inherited from [Object.prototype], which creates no own property (an
    object assigned so becomes the prototype of [out]; the map is the own
    properties of [out]). *)
Definition assign (key : string) (value : JsValue)
    (out : gmap string JsValue) : gmap string JsValue :=
  if decide (key = "__proto__") then out else <[key := value]> out.

(** [sanitize]: copies the entries of [options] whose value is neither
    [undefined] nor [null] into a fresh object.  The map is the own
    enumerable properties of the object. *)
Definition sanitize (options : gmap string JsValue) : gmap string JsValue :=
  map_fold (λ key value out, if present value then assign key value out else out)
           ∅ options.

(** The native module as the facade sees it: the two exported methods.
    [Promise] is the settled outcome of the returned promise. *)
Inductive Promise : Type :=
| Resolved (value : gmap string Dynamic)
| Rejected (code : string) (message : option string).

Record NativeModule : Type := {
  native_measureText : option string → option (gmap string Dynamic) → Promise;
  native_measureTextSync :
    option string → option (gmap string Dynamic) → gmap string Dynamic
}.

(** [measureText(text, options = {})]; [None] is an omitted [options].
    [String(text)] is the identity on the strings the model passes. *)
Definition measureText (N : NativeModule) (text : string)
    (options : option (gmap string JsValue)) : Promise :=
  native_measureText N (Some text)
    (Some (bridge (sanitize (default ∅ options)))).

Definition measureTextSync (N : NativeModule) (text : string)
    (options : option (gmap string JsValue)) : gmap string Dynamic :=
  native_measureTextSync N (Some text)
    (Some (bridge (sanitize (default ∅ options)))).

End JS.

(** ** ReactNativeTextMeasureModule.java *)

Module Android.

(** [Typeface.NORMAL], [Typeface.BOLD], [Typeface.ITALIC],
    [Typeface.BOLD_ITALIC]. *)
Inductive TypefaceStyle : Type := NORMAL | BOLD | ITALIC | BOLD_ITALIC.

Inductive Alignment : Type := ALIGN_NORMAL | ALIGN_OPPOSITE | ALIGN_CENTER.

Inductive TruncateAt : Type := START | MIDDLE | END | MARQUEE.

Definition ANTI_ALIAS_FLAG : Z := 1.
Definition LOLLIPOP : Z := 21.
Definition M : Z := 23.

Section Engine.

(** The handle type of a resolved font. *)
Context {Typeface : Type}.

Record TextPaint : Type := mkTextPaint {
  paint_flags : Z;
  paint_textSize : Q;
  paint_typeface : Typeface;
  paint_letterSpacing : Q
}.

(** Everything [StaticLayout] is configured with, through the builder
    or through the deprecated constructor. *)
Record StaticLayoutArgs : Type := mkStaticLayoutArgs {
  sl_text : string;
  sl_paint : TextPaint;
  sl_width : Z;
  sl_alignment : Alignment;
  sl_includePad : bool;
  sl_maxLines : Z;
  sl_ellipsize : option TruncateAt;
  sl_spacingAdd : Q;
  sl_spacingMult : Q;
  sl_ellipsizedWidth : Z
}.

(** What the adapter reads back from a built [StaticLayout]. *)
Record Layout : Type := mkLayout {
  getLineCount : nat;
  getHeight : Z;
  getLineWidth : nat → Q
}.

(** The platform the module runs on.  [create_from] is
    [Typeface.create(Typeface, int)], [create_named] is
    [Typeface.create(String, int)] on a family name, and
    [create_default style] is [Typeface.create((String) null, style)], the
    default typeface, which the source calls outside any [try]: it always
    yields a typeface.  [ascent] and [descent] are the font metrics of a
    paint, [StaticLayout_build] is the layout pass. *)
Record Platform : Type := mkPlatform {
  density : Q;
  SDK_INT : Z;
  createFromAsset : string → result (option Typeface);
  create_from : Typeface → TypefaceStyle → result Typeface;
  create_named : string → TypefaceStyle → result (option Typeface);
  create_default : TypefaceStyle → Typeface;
  ascent : TextPaint → Q;
  descent : TextPaint → Q;
  StaticLayout_build : StaticLayoutArgs → result Layout
}.

(** *** ReadableMap *)

Definition hasKey (map : gmap string Dynamic) (key : string) : bool :=
  match map !! key with Some _ => true | None => false end.

Definition isNull (map : gmap string Dynamic) (key : string) : bool :=
  match map !! key with Some DynNull => true | _ => false end.

Definition unexpected_type (key : string) : Exception :=
  mkException (Some ("Value for " ++ key ++ " cannot be cast"))%string.

Definition ReadableMap_getDouble (map : gmap string Dynamic) (key : string)
  : result Q :=
  match map !! key with
  | Some (DynNumber x) => OK x
  | _ => Throw (unexpected_type key)
  end.

Definition ReadableMap_getInt (map : gmap string Dynamic) (key : string)
  : result Z :=
  match map !! key with
  | Some (DynNumber x) => OK (int_of_double x)
  | _ => Throw (unexpected_type key)
  end.

Definition ReadableMap_getBoolean (map : gmap string Dynamic) (key : string)
  : result bool :=
  match map !! key with
  | Some (DynBoolean b) => OK b
  | _ => Throw (unexpected_type key)
  end.

Definition ReadableMap_getString (map : gmap string Dynamic) (key : string)
  : result (option string) :=
  match map !! key with
  | Some (DynString s) => OK (Some s)
  | _ => Throw (unexpected_type key)
  end.

(** *** ReadableMap helpers (null-safe) *)

(** [getFloat] returns [(float) map.getDouble(key)]; the narrowing is the
    identity on the values of a [float] ([binary32]). *)

Definition getFloat (map : gmap string Dynamic) (key : string) (def : Q)
  : result Q :=
  if hasKey map key && negb (isNull map key)
  then ReadableMap_getDouble map key else OK def.

Definition getInt (map : gmap string Dynamic) (key : string) (def : Z)
  : result Z :=
  if hasKey map key && negb (isNull map key)
  then ReadableMap_getInt map key else OK def.

Definition getBool (map : gmap string Dynamic) (key : string) (def : bool)
  : result bool :=
  if hasKey map key && negb (isNull map key)
  then ReadableMap_getBoolean map key else OK def.

Definition getString (map : gmap string Dynamic) (key : string)
    (def : option string) : result (option string) :=
  if hasKey map key && negb (isNull map key)
  then ReadableMap_getString map key else OK def.

Definition NullPointerException : Exception := mkException None.

Definition numericWeightIsBold (weight : option string) : result bool :=
  match weight with
  | None => Throw NullPointerException
  | Some w =>
      match Integer_parseInt (trim w) with
      | Some n => OK (600 <=? n)
      | None => OK false
      end
  end.

(** *** Typeface resolution *)

(** The body of the first [try]: [Typeface.createFromAsset] on
    [fonts/<fontFamily>.ttf], then [Typeface.create(fromAssets, style)]. *)
Definition bundled_font (P : Platform) (fontFamily : string)
    (style : TypefaceStyle) : result (option Typeface) :=
  fromAssets ← createFromAsset P ("fonts/" ++ fontFamily ++ ".ttf")%string;
  match fromAssets with
  | Some fa => t ← create_from P fa style; mret (Some t)
  | None => mret None
  end.

(** Each guarded attempt yields [Some t] when it returns [t] from
    [resolveTypeface] and [None] when control falls through to the next
    attempt, after a null result or a caught exception. *)
Definition fromAssets_attempt (P : Platform) (fontFamily : string)
    (style : TypefaceStyle) : result (option Typeface) :=
  try_catch (bundled_font P fontFamily style) (λ ignored, OK None).

Definition systemFont_attempt (P : Platform) (fontFamily : string)
    (style : TypefaceStyle) : result (option Typeface) :=
  try_catch (create_named P fontFamily style) (λ ignored, OK None).

Definition isEmpty (s : string) : bool :=
  match s with EmptyString => true | _ => false end.

Definition resolveTypeface (P : Platform) (fontFamily : option string)
    (style : TypefaceStyle) : result Typeface :=
  match fontFamily with
  | Some ff =>
      if negb (isEmpty ff) then
        a ← fromAssets_attempt P ff style;
        match a with
        | Some t => OK t
        | None =>
            s ← systemFont_attempt P ff style;
            match s with
            | Some t => OK t
            | None => OK (create_default P style)
            end
        end
      else OK (create_default P style)
  | None => OK (create_default P style)
  end.

(** *** StaticLayout builder *)

(** The configuration [buildStaticLayout] hands to the engine: through
    [StaticLayout.Builder] from API 23, through the deprecated
    constructor (which has no line limit) below. *)
Definition staticLayoutArgs (P : Platform) (text : string) (paint : TextPaint)
    (maxWidthPx : Z) (lineHeightPx : Q) (numberOfLines : Z)
    (includeFontPad : bool) : StaticLayoutArgs :=
  if M <=? SDK_INT P then
    let spacing :=
      if Qgtb lineHeightPx 0 then
        let naturalLineHeight := (- ascent P paint + descent P paint)%Q in
        ((lineHeightPx - naturalLineHeight)%Q, 1%Q)
      else (0%Q, 1%Q) in
    {| sl_text := text;
       sl_paint := paint;
       sl_width := maxWidthPx;
       sl_alignment := ALIGN_NORMAL;
       sl_includePad := includeFontPad;
       sl_maxLines := if 0 <? numberOfLines then numberOfLines
                      else Integer_MAX_VALUE;
       sl_ellipsize := if 0 <? numberOfLines then Some END else None;
       sl_spacingAdd := spacing.1;
       sl_spacingMult := spacing.2;
       sl_ellipsizedWidth := maxWidthPx |}
  else
    let spacingMult := 1%Q in
    let spacingAdd :=
      if Qgtb lineHeightPx 0 then
        let naturalLineHeight := (- ascent P paint + descent P paint)%Q in
        (lineHeightPx - naturalLineHeight)%Q
      else 0%Q in
    {| sl_text := text;
       sl_paint := paint;
       sl_width := maxWidthPx;
       sl_alignment := ALIGN_NORMAL;
       sl_includePad := includeFontPad;
       sl_maxLines := Integer_MAX_VALUE;
       sl_ellipsize := if 0 <? numberOfLines then Some END else None;
       sl_spacingAdd := spacingAdd;
       sl_spacingMult := spacingMult;
       sl_ellipsizedWidth := maxWidthPx |}.



Definition buildStaticLayout (P : Platform) (text : string) (paint : TextPaint)
    (maxWidthPx : Z) (lineHeightPx : Q) (numberOfLines : Z)
    (includeFontPad : bool) : result Layout :=
  StaticLayout_build P
    (staticLayoutArgs P text paint maxWidthPx lineHeightPx numberOfLines
       includeFontPad).

(** *** Core measurement *)

(** Step 1 of [performMeasure]: the parsed options. *)
Record Options : Type := mkOptions {
  fontSize : Q;
  fontFamily : option string;
  fontWeight : option string;
  fontStyle : option string;
  letterSpacing : Q;
  lineHeight : Q;
  maxWidth : Q;
  maxHeight : Q;
  numberOfLines : Z;
  includeFontPad : bool
}.

Definition parseOptions (options : gmap string Dynamic) : result Options :=
  fontSize ← getFloat options "fontSize" 14%Q;
  fontFamily ← getString options "fontFamily" None;
  fontWeight ← getString options "fontWeight" (Some "normal"%string);
  fontStyle ← getString options "fontStyle" (Some "normal"%string);
  letterSpacing ← getFloat options "letterSpacing" 0%Q;
  lineHeight ← getFloat options "lineHeight" 0%Q;
  maxWidth ← getFloat options "maxWidth" 0%Q;
  maxHeight ← getFloat options "maxHeight" 0%Q;
  numberOfLines ← getInt options "numberOfLines" 0;
  includeFontPad ← getBool options "includeFontPadding" true;
  mret (mkOptions fontSize fontFamily fontWeight fontStyle letterSpacing
          lineHeight maxWidth maxHeight numberOfLines includeFontPad).

(** Step 2: the pixel constraints. *)
Definition maxWidthPx (P : Platform) (o : Options) : Z :=
  if Qgtb (maxWidth o) 0 then Math_round (maxWidth o * density P)
  else Integer_MAX_VALUE.

Definition maxHeightPx (P : Platform) (o : Options) : Z :=
  if Qgtb (maxHeight o) 0 then Math_round (maxHeight o * density P)
  else Integer_MAX_VALUE.

(** Step 3: the requested style. *)
Definition isBold (fontWeight : option string) : result bool :=
  if match fontWeight with
     | Some w => equalsIgnoreCase "bold" w
     | None => false
     end
  then OK true
  else numericWeightIsBold fontWeight.

Definition isItalic (o : Options) : bool :=
  match fontStyle o with
  | Some s => equalsIgnoreCase "italic" s
  | None => false
  end.

Definition typefaceStyle (isBold isItalic : bool) : TypefaceStyle :=
  if isBold && isItalic then BOLD_ITALIC
  else if isBold then BOLD
  else if isItalic then ITALIC
  else NORMAL.

(** Step 4: the paint. *)
Definition buildPaint (P : Platform) (o : Options) (typeface : Typeface)
  : TextPaint :=
  let fontSizePx := (fontSize o * density P)%Q in
  let paint := mkTextPaint ANTI_ALIAS_FLAG fontSizePx typeface 0%Q in
  if (LOLLIPOP <=? SDK_INT P) && Qnonzero (letterSpacing o) then
    let letterSpacingPx := (letterSpacing o * density P)%Q in
    mkTextPaint (paint_flags paint) (paint_textSize paint)
      (paint_typeface paint) (letterSpacingPx / fontSizePx)%Q
  else paint.

(** Steps 1 to 5, up to the engine call: the layout request and the
    height cap kept for step 6. *)
Definition layoutRequest (P : Platform) (text : option string)
    (options : option (gmap string Dynamic))
  : result (StaticLayoutArgs * Z) :=
  let text := default ""%string text in
  let options := default ∅ options in
  o ← parseOptions options;
  let lineHeightPx := (lineHeight o * density P)%Q in
  isBold ← isBold (fontWeight o);
  typeface ← resolveTypeface P (fontFamily o)
               (typefaceStyle isBold (isItalic o));
  let paint := buildPaint P o typeface in
  mret (staticLayoutArgs P text paint (maxWidthPx P o) lineHeightPx
          (numberOfLines o) (includeFontPad o),
        maxHeightPx P o).

(** Step 6: the widest line. *)
Definition measuredWidth (layout : Layout) : Q :=
  foldl (λ measuredWidth i,
           let lineWidth := getLineWidth layout i in
           if Qgtb lineWidth measuredWidth then lineWidth else measuredWidth)
        0%Q (seq 0 (getLineCount layout)).

(** Step 6: the height, clamped when [maxHeight] was provided. *)
Definition measuredHeight (layout : Layout) (maxHeightPx : Z) : Q :=
  let measuredHeight := inject_Z (getHeight layout) in
  if negb (maxHeightPx =? Integer_MAX_VALUE)
     && Qgtb measuredHeight (inject_Z maxHeightPx)
  then inject_Z maxHeightPx else measuredHeight.

Definition putDouble (key : string) (value : Q) (m : gmap string Dynamic)
  : gmap string Dynamic := <[key := DynNumber value]> m.
Definition putInt (key : string) (value : Z) (m : gmap string Dynamic)
  : gmap string Dynamic := <[key := DynNumber (inject_Z value)]> m.
Definition putString (key : string) (value : option string)
    (m : gmap string Dynamic) : gmap string Dynamic :=
  <[key := match value with Some s => DynString s | None => DynNull end]> m.

(** Steps 6 and 7: the result map, in dp. *)
Definition extractDimensions (P : Platform) (layout : Layout) (maxHeightPx : Z)
  : gmap string Dynamic :=
  putInt "lineCount" (Z.of_nat (getLineCount layout))
    (putDouble "height" (measuredHeight layout maxHeightPx / density P)%Q
       (putDouble "width" (measuredWidth layout / density P)%Q ∅)).

Definition performMeasure (P : Platform) (text : option string)
    (options : option (gmap string Dynamic)) : result (gmap string Dynamic) :=
  request ← layoutRequest P text options;
  layout ← StaticLayout_build P request.1;
  mret (extractDimensions P layout request.2).

(** *** The two exported methods *)

Definition measureText (P : Platform) (text : option string)
    (options : option (gmap string Dynamic)) : JS.Promise :=
  match performMeasure P text options with
  | OK result => JS.Resolved result
  | Throw e => JS.Rejected "MEASURE_ERROR" (getMessage e)
  end.

Definition measureTextSync (P : Platform) (text : option string)
    (options : option (gmap string Dynamic)) : gmap string Dynamic :=
  match performMeasure P text options with
  | OK result => result
  | Throw e => putString "error" (getMessage e) ∅
  end.

Definition module (P : Platform) : JS.NativeModule :=
  {| JS.native_measureText := measureText P;
     JS.native_measureTextSync := measureTextSync P |}.

End Engine.
Arguments TextPaint : clear implicits.
Arguments StaticLayoutArgs : clear implicits.
Arguments Platform : clear implicits.

End Android.

(** ** ReactNativeTextMeasure.m *)

Module IOS.

(** [CGFLOAT_MAX], the largest finite [double]. *)
Definition CGFLOAT_MAX : Q := inject_Z ((2 ^ 53 - 1) * 2 ^ 971).

(** UIKit's [UIFontWeight] constants. *)
Definition UIFontWeightUltraLight : Q := (- 8 # 10)%Q.
Definition UIFontWeightThin : Q := (- 6 # 10)%Q.
Definition UIFontWeightLight : Q := (- 4 # 10)%Q.
Definition UIFontWeightRegular : Q := 0%Q.
Definition UIFontWeightMedium : Q := (23 # 100)%Q.
Definition UIFontWeightSemibold : Q := (3 # 10)%Q.
Definition UIFontWeightBold : Q := (4 # 10)%Q.
Definition UIFontWeightHeavy : Q := (56 # 100)%Q.
Definition UIFontWeightBlack : Q := (62 # 100)%Q.

(** UIKit's symbolic trait bits. *)
Definition UIFontDescriptorTraitItalic : Z := 1.
Definition UIFontDescriptorTraitBold : Z := 2.

Inductive NSLineBreakMode : Type :=
| NSLineBreakByWordWrapping
| NSLineBreakByCharWrapping
| NSLineBreakByClipping
| NSLineBreakByTruncatingTail.

Record NSParagraphStyle : Type := mkParagraphStyle {
  lineBreakMode : NSLineBreakMode;
  minimumLineHeight : Q;
  maximumLineHeight : Q;
  lineSpacing : Q;
  lineHeightMultiple : Q
}.

(** [[[NSMutableParagraphStyle alloc] init]]: the default style. *)
Definition NSParagraphStyle_init : NSParagraphStyle :=
  mkParagraphStyle NSLineBreakByWordWrapping 0 0 0 0.

Record NSTextContainer : Type := mkTextContainer {
  container_size : Q * Q;
  lineFragmentPadding : Q;
  container_lineBreakMode : NSLineBreakMode;
  maximumNumberOfLines : Z
}.

(** [[[NSTextContainer alloc] initWithSize:size]]: padding 5, no line
    limit. *)
Definition NSTextContainer_initWithSize (size : Q * Q) : NSTextContainer :=
  mkTextContainer size 5 NSLineBreakByWordWrapping 0.

(** What the adapter reads back after [ensureLayoutForTextContainer:]:
    the size of the used rectangle and the number of line fragments the
    enumeration visits. *)
Record TextKitLayout : Type := mkTextKitLayout {
  usedRect_size : Q * Q;
  lineFragments : nat
}.


(** The [weightMap] dictionary literal. *)
Definition weightMap : list (string * Q) :=
  [ ("100", UIFontWeightUltraLight);
    ("200", UIFontWeightThin);
    ("300", UIFontWeightLight);
    ("400", UIFontWeightRegular);
    ("500", UIFontWeightMedium);
    ("600", UIFontWeightSemibold);
    ("700", UIFontWeightBold);
    ("800", UIFontWeightHeavy);
    ("900", UIFontWeightBlack);
    ("bold", UIFontWeightBold);
    ("normal", UIFontWeightRegular) ]%string.

Fixpoint objectForKey {A : Type} (d : list (string * A)) (key : string)
  : option A :=
  match d with
  | [] => None
  | (k, v) :: d' => if String.eqb k key then Some v else objectForKey d' key
  end.

Definition unrecognized_selector (sel : string) : Exception :=
  mkException (Some ("unrecognized selector sent to instance: " ++ sel))%string.

Section Engine.

Context {UIFont UIFontDescriptor : Type}.

(** The attributes of the single-style run. *)
Record Attributes : Type := mkAttributes {
  NSFontAttributeName : UIFont;
  NSParagraphStyleAttributeName : NSParagraphStyle;
  NSKernAttributeName : option Q
}.

(** UIKit and TextKit as the adapter calls them.  A nullable result is
    an [option]; [systemFontOfSize] is the plain system font, which is
    always available.  [layout] stands for the storage / layout manager
    / container stack after the forced layout pass. *)
Record Platform : Type := mkPlatform {
  NSString_doubleValue : string → Q;
  NSString_integerValue : string → Z;
  fontDescriptorWithName : string → Q → UIFontDescriptor;
  fontDescriptorWithSymbolicTraits :
    UIFontDescriptor → Z → option UIFontDescriptor;
  fontWithDescriptor : UIFontDescriptor → Q → option UIFont;
  systemFontOfSize_weight : Q → Q → option UIFont;
  fontDescriptor : UIFont → UIFontDescriptor;
  systemFontOfSize : Q → UIFont;
  layout : string → Attributes → NSTextContainer → result TextKitLayout
}.

(** *** Messages sent to the option values *)

Definition doubleValue (P : Platform) (v : Dynamic) : result Q :=
  match v with
  | DynNumber x => OK x
  | DynBoolean b => OK (if b then 1%Q else 0%Q)
  | DynString s => OK (NSString_doubleValue P s)
  | DynNull | DynArray _ | DynMap _ =>
      Throw (unrecognized_selector "doubleValue")
  end.

(** [integerValue], for values within the [NSInteger] range. *)
Definition integerValue (P : Platform) (v : Dynamic) : result Z :=
  match v with
  | DynNumber x => OK (if Qle_bool 0 x then Qfloor x else Qceiling x)
  | DynBoolean b => OK (if b then 1 else 0)
  | DynString s => OK (NSString_integerValue P s)
  | DynNull | DynArray _ | DynMap _ =>
      Throw (unrecognized_selector "integerValue")
  end.

(** [x.length > 0] on a nullable object expected to be a string. *)
Definition has_length (v : option Dynamic) : result bool :=
  match v with
  | None => OK false
  | Some (DynString s) => OK (0 <? Z.of_nat (String.length s))
  | Some _ => Throw (unrecognized_selector "length")
  end.

Definition isEqualToString (v : Dynamic) (s : string) : result bool :=
  match v with
  | DynString t => OK (String.eqb t s)
  | _ => Throw (unrecognized_selector "isEqualToString:")
  end.

(** [weightMap[fontWeight]]: only a string can equal a key. *)
Definition weightMap_lookup (fontWeight : Dynamic) : option Q :=
  match fontWeight with
  | DynString s => objectForKey weightMap s
  | _ => None
  end.

(** [options[key] ? [options[key] doubleValue] : def] *)
Definition doubleOption (P : Platform) (options : gmap string Dynamic)
    (key : string) (def : Q) : result Q :=
  match options !! key with
  | Some v => doubleValue P v
  | None => OK def
  end.

Definition integerOption (P : Platform) (options : gmap string Dynamic)
    (key : string) (def : Z) : result Z :=
  match options !! key with
  | Some v => integerValue P v
  | None => OK def
  end.

(** Step 1 of [RNTMPerformMeasure]: the parsed options. *)
Record Options : Type := mkOptions {
  fontSize : Q;
  fontFamily : option Dynamic;
  fontWeight : Dynamic;
  fontStyle : Dynamic;
  letterSpacing : Q;
  lineHeight : Q;
  maxWidth : Q;
  maxHeight : Q;
  maxLines : Z
}.

Definition parseOptions (P : Platform) (options : gmap string Dynamic)
  : result Options :=
  fontSize ← doubleOption P options "fontSize" 14%Q;
  let fontFamily := options !! "fontFamily"%string in
  let fontWeight := default (DynString "normal") (options !! "fontWeight"%string) in
  let fontStyle := default (DynString "normal") (options !! "fontStyle"%string) in
  letterSpacing ← doubleOption P options "letterSpacing" 0%Q;
  lineHeight ← doubleOption P options "lineHeight" 0%Q;
  maxWidth ← doubleOption P options "maxWidth" 0%Q;
  maxHeight ← doubleOption P options "maxHeight" 0%Q;
  maxLines ← integerOption P options "numberOfLines" 0;
  mret (mkOptions fontSize fontFamily fontWeight fontStyle letterSpacing
          lineHeight maxWidth maxHeight maxLines).

(** [if (maxWidth <= 0) maxWidth = CGFLOAT_MAX;] and the same for
    [maxHeight]. *)
Definition unbounded (o : Options) : Options :=
  let maxWidth := if Qle_bool (maxWidth o) 0 then CGFLOAT_MAX else maxWidth o in
  let maxHeight := if Qle_bool (maxHeight o) 0 then CGFLOAT_MAX else maxHeight o in
  mkOptions (fontSize o) (fontFamily o) (fontWeight o) (fontStyle o)
    (letterSpacing o) (lineHeight o) maxWidth maxHeight (maxLines o).

(** Step 2: the resolved [UIFontWeight]. *)
Definition uiFontWeight (fontWeight : Dynamic) : Q :=
  match weightMap_lookup fontWeight with
  | Some w => w
  | None => UIFontWeightRegular
  end.

Definition symbolicTraits (uiFontWeight : Q) (isItalic : bool) : Z :=
  Z.lor (if Qgeb uiFontWeight UIFontWeightBold
         then UIFontDescriptorTraitBold else 0)
        (if isItalic then UIFontDescriptorTraitItalic else 0).

(** Step 3: the font built from the requested family, when there is
    one. *)
Definition familyFont (P : Platform) (fontFamily : string) (fontSize : Q)
    (uiFontWeight : Q) (isItalic : bool) : option UIFont :=
  let descriptor := fontDescriptorWithName P fontFamily fontSize in
  let traits := symbolicTraits uiFontWeight isItalic in
  let descriptor :=
    if negb (traits =? 0) then
      match fontDescriptorWithSymbolicTraits P descriptor traits with
      | Some traitDescriptor => traitDescriptor
      | None => descriptor
      end
    else descriptor in
  fontWithDescriptor P descriptor fontSize.

(** Step 3, fallback: the system font. *)
Definition systemFont (P : Platform) (fontSize : Q) (uiFontWeight : Q)
    (isItalic : bool) : option UIFont :=
  if isItalic then
    let sysDesc := fontDescriptor P <$> systemFontOfSize_weight P fontSize uiFontWeight in
    let italicDesc :=
      sysDesc ≫= (λ d, fontDescriptorWithSymbolicTraits P d
                         UIFontDescriptorTraitItalic) in
    match italicDesc with
    | Some d => fontWithDescriptor P d fontSize
    | None => systemFontOfSize_weight P fontSize uiFontWeight
    end
  else systemFontOfSize_weight P fontSize uiFontWeight.

Definition buildFont (P : Platform) (o : Options) (isItalic : bool)
  : result UIFont :=
  let w := uiFontWeight (fontWeight o) in
  named ← has_length (fontFamily o);
  let font :=
    match fontFamily o with
    | Some (DynString ff) =>
        if named : bool then familyFont P ff (fontSize o) w isItalic else None
    | _ => None
    end in
  let font :=
    match font with
    | Some f => Some f
    | None => systemFont P (fontSize o) w isItalic
    end in
  mret (match font with
        | Some f => f
        | None => systemFontOfSize P (fontSize o)
        end).

(** Step 4: the paragraph style. *)
Definition paragraphStyle (lineHeight : Q) : NSParagraphStyle :=
  let paraStyle := NSParagraphStyle_init in
  let paraStyle :=
    mkParagraphStyle NSLineBreakByWordWrapping (minimumLineHeight paraStyle)
      (maximumLineHeight paraStyle) (lineSpacing paraStyle)
      (lineHeightMultiple paraStyle) in
  if Qgtb lineHeight 0 then
    mkParagraphStyle (lineBreakMode paraStyle) lineHeight lineHeight
      (lineSpacing paraStyle) (lineHeightMultiple paraStyle)
  else paraStyle.

(** Step 5: the attributes of the run. *)
Definition attributes (font : UIFont) (o : Options) : Attributes :=
  mkAttributes font (paragraphStyle (lineHeight o))
    (if Qnonzero (letterSpacing o) then Some (letterSpacing o) else None).

(** Step 6: the text container. *)
Definition textContainer (o : Options) : NSTextContainer :=
  let container := NSTextContainer_initWithSize (maxWidth o, maxHeight o) in
  mkTextContainer (container_size container) 0 NSLineBreakByWordWrapping
    (if 0 <? maxLines o then maxLines o else maximumNumberOfLines container).

(** Steps 1 to 6, up to the layout pass: what TextKit is asked to lay
    out. *)
Definition layoutRequest (P : Platform) (text : option string)
    (options : gmap string Dynamic)
  : result (string * Attributes * NSTextContainer) :=
  o ← parseOptions P options;
  let o := unbounded o in
  isItalic ← isEqualToString (fontStyle o) "italic";
  font ← buildFont P o isItalic;
  let safeText :=
    match text with
    | Some t => if 0 <? Z.of_nat (String.length t) then t else ""%string
    | None => ""%string
    end in
  mret (safeText, attributes font o, textContainer o).

(** The result dictionary. *)
Definition resultDictionary (l : TextKitLayout) : gmap string Dynamic :=
  let measuredWidth := ceil (usedRect_size l).1 in
  let measuredHeight := ceil (usedRect_size l).2 in
  <["width"%string := DynNumber measuredWidth]>
    (<["height"%string := DynNumber measuredHeight]>
       (<["lineCount"%string :=
            DynNumber (inject_Z (Z.of_nat (lineFragments l)))]> ∅)).

Definition RNTMPerformMeasure (P : Platform) (text : option string)
    (options : gmap string Dynamic) : result (gmap string Dynamic) :=
  request ← layoutRequest P text options;
  l ← layout P request.1.1 request.1.2 request.2;
  mret (resultDictionary l).

(** *** The two exported methods *)

Definition measureText (P : Platform) (text : option string)
    (options : option (gmap string Dynamic)) : JS.Promise :=
  let capturedText := text in
  let capturedOptions := options in
  match RNTMPerformMeasure P capturedText (default ∅ capturedOptions) with
  | OK result => JS.Resolved result
  | Throw exception => JS.Rejected "MEASURE_ERROR" (getMessage exception)
  end.

Definition measureTextSync (P : Platform) (text : option string)
    (options : option (gmap string Dynamic)) : gmap string Dynamic :=
  match
    RNTMPerformMeasure P (Some (default ""%string text)) (default ∅ options)
  with
  | OK result => result
  | Throw exception =>
      {[ "error"%string :=
           DynString (default "Unknown error"%string (getMessage exception)) ]}
  end.

Definition module (P : Platform) : JS.NativeModule :=
  {| JS.native_measureText := measureText P;
     JS.native_measureTextSync := measureTextSync P |}.

End Engine.
Arguments Attributes : clear implicits.
Arguments Platform : clear implicits.

End IOS.

(** ** index.js: linking and argument coercion *)

Module Linking.

(** The message of the error the facade throws when the native module is
    not linked. *)
Definition LINKING_ERROR : string :=
  "react-native-text-measure: Native module not found.

iOS:     Make sure you ran `pod install` and the .m file is in your Xcode project.
Android: Make sure ReactNativeTextMeasurePackage is registered in MainApplication.

If you are using React Native >= 0.60, auto-linking should handle this.
Try rebuilding the app.".

(** [NativeTextMeasure]: the module registered under
    [NativeModules.ReactNativeTextMeasure], or else a proxy whose every
    property read throws [Error(LINKING_ERROR)]; the result is that of
    reading a method off it. *)
Definition NativeTextMeasure (NativeModules : gmap string JS.NativeModule)
  : result JS.NativeModule :=
  match NativeModules !! "ReactNativeTextMeasure" with
  | Some module => OK module
  | None => Throw (mkException (Some LINKING_ERROR))
  end.

(** The [options] argument of the public functions: left out (or
    [undefined]), [null], or an object. *)
Inductive OptionsArg : Type :=
| Omitted
| NullOptions
| Object (o : gmap string JsValue).

Definition TypeError : Exception :=
  mkException (Some "Cannot convert undefined or null to object").

(** [sanitize(options)] after the default [options = {}]:
    [Object.entries(null)] throws. *)
Definition sanitize_arg (options : OptionsArg) : result (gmap string JsValue) :=
  match options with
  | Omitted => OK (JS.sanitize ∅)
  | NullOptions => Throw TypeError
  | Object o => OK (JS.sanitize o)
  end.

Section Coercion.

(** The decimal form JS gives a number. *)
Context (Number_toString : Q → string).

(** [String(text)]: an array is its elements joined by commas, a null or
    undefined element giving the empty string; a plain object is
    [[object Object]]. *)
Fixpoint String_of (text : JsValue) : string :=
  match text with
  | JsUndefined => "undefined"
  | JsNull => "null"
  | JsBoolean true => "true"
  | JsBoolean false => "false"
  | JsNumber x => Number_toString x
  | JsString s => s
  | JsArray items =>
      String.concat ","
        (map (λ item,
                match item with
                | JsUndefined | JsNull => ""
                | _ => String_of item
                end) items)
  | JsObject _ => "[object Object]"
  end.

(** [measureText(text, options = {})]: the method is read off
    [NativeTextMeasure] first, then the arguments are evaluated. *)
Definition measureText (NativeModules : gmap string JS.NativeModule)
    (text : JsValue) (options : OptionsArg) : result JS.Promise :=
  module ← NativeTextMeasure NativeModules;
  let text := String_of text in
  options ← sanitize_arg options;
  mret (JS.native_measureText module (Some text) (Some (bridge options))).

Definition measureTextSync (NativeModules : gmap string JS.NativeModule)
    (text : JsValue) (options : OptionsArg) : result (gmap string Dynamic) :=
  module ← NativeTextMeasure NativeModules;
  let text := String_of text in
  options ← sanitize_arg options;
  mret (JS.native_measureTextSync module (Some text) (Some (bridge options))).

End Coercion.

End Linking.

(** ** ReactNativeTextMeasurePackage.java *)

Module Package.

(** [ReactNativeTextMeasureModule.getName()] *)
Definition getName : string := "ReactNativeTextMeasure".

(** [createNativeModules]: the one module, under its name. *)
Definition createNativeModules {Typeface : Type}
    (reactContext : Android.Platform Typeface)
  : list (string * JS.NativeModule) :=
  [ (getName, Android.module reactContext) ].

(** [createViewManagers]: none. *)
Definition createViewManagers {ViewManager Typeface : Type}
    (reactContext : Android.Platform Typeface) : list ViewManager := [].

(** The bridge exposes every registered native module to JS under its
    name; of two modules of one name the first registered is kept. *)
Definition NativeModules (modules : list (string * JS.NativeModule))
  : gmap string JS.NativeModule :=
  list_to_map modules.

End Package.

(** ** Option typing *)

Module Typing.

(** The keys [performMeasure] reads, and those [RNTMPerformMeasure]
    reads. *)
Definition android_keys : list string :=
  [ "fontSize"; "fontFamily"; "fontWeight"; "fontStyle"; "letterSpacing";
    "lineHeight"; "maxWidth"; "maxHeight"; "numberOfLines";
    "includeFontPadding" ]%string.

Definition ios_keys : list string :=
  [ "fontSize"; "fontFamily"; "fontWeight"; "fontStyle"; "letterSpacing";
    "lineHeight"; "maxWidth"; "maxHeight"; "numberOfLines" ]%string.

Definition number_or_absent (v : option Dynamic) : bool :=
  match v with
  | None | Some DynNull | Some (DynNumber _) => true
  | Some _ => false
  end.

Definition string_or_absent (v : option Dynamic) : bool :=
  match v with
  | None | Some DynNull | Some (DynString _) => true
  | Some _ => false
  end.

Definition boolean_or_absent (v : option Dynamic) : bool :=
  match v with
  | None | Some DynNull | Some (DynBoolean _) => true
  | Some _ => false
  end.

(** An options map every entry of which the Android helpers can read. *)
Definition android_options (m : gmap string Dynamic) : bool :=
  number_or_absent (m !! "fontSize")
  && string_or_absent (m !! "fontFamily")
  && string_or_absent (m !! "fontWeight")
  && string_or_absent (m !! "fontStyle")
  && number_or_absent (m !! "letterSpacing")
  && number_or_absent (m !! "lineHeight")
  && number_or_absent (m !! "maxWidth")
  && number_or_absent (m !! "maxHeight")
  && number_or_absent (m !! "numberOfLines")
  && boolean_or_absent (m !! "includeFontPadding").

(** A value that answers [doubleValue] and [integerValue]: an
    [NSNumber] or an [NSString]. *)
Definition number_like (v : option Dynamic) : bool :=
  match v with
  | None | Some (DynNumber _) | Some (DynBoolean _) | Some (DynString _) =>
      true
  | Some _ => false
  end.

Definition string_or_missing (v : option Dynamic) : bool :=
  match v with
  | None | Some (DynString _) => true
  | Some _ => false
  end.

(** An options map the iOS adapter reads without raising. *)
Definition ios_options (m : gmap string Dynamic) : bool :=
  number_like (m !! "fontSize")
  && number_like (m !! "letterSpacing")
  && number_like (m !! "lineHeight")
  && number_like (m !! "maxWidth")
  && number_like (m !! "maxHeight")
  && number_like (m !! "numberOfLines")
  && string_or_missing (m !! "fontStyle")
  && string_or_missing (m !! "fontFamily").

End Typing.

(** ** Sample platforms

    Two small, fully computable engines used to run the adapters on
    concrete inputs: a monospace font whose glyphs advance by half the text
    size, broken into lines at the wrap width. *)

Module Sample.

Definition Typeface : Type := string * Android.TypefaceStyle.

Definition monospace_layout (args : Android.StaticLayoutArgs Typeface)
  : result Android.Layout :=
    let paint := Android.sl_paint args in
    let advance :=
      (Android.paint_textSize paint
       * ((1 # 2) + Android.paint_letterSpacing paint))%Q in
    let chars := Z.of_nat (String.length (Android.sl_text args)) in
    let perLine :=
      Z.max 1 (Qfloor (inject_Z (Android.sl_width args) / advance)) in
    let lines :=
      if chars =? 0 then 1
      else Z.min (Z.max 1 (Android.sl_maxLines args))
                 ((chars + perLine - 1) / perLine) in
    let natural := (Android.paint_textSize paint * (6 # 5))%Q in
    let lineHeight :=
      (natural * Android.sl_spacingMult args + Android.sl_spacingAdd args)%Q in
    OK {| Android.getLineCount := Z.to_nat lines;
          Android.getHeight := Qceiling (inject_Z lines * lineHeight);
          Android.getLineWidth := λ i,
            (advance
             * inject_Z (Z.max 0 (Z.min perLine
                                    (chars - perLine * Z.of_nat i))))%Q |}.

(** A device of density 2 on API 30 with one bundled font, [Inter], and
    the system families [sans-serif] and [monospace]. *)
Definition android : Android.Platform Typeface :=
  {| Android.density := 2;
     Android.SDK_INT := 30;
     Android.createFromAsset := λ path,
       if String.eqb path "fonts/Inter.ttf" then OK (Some ("Inter", Android.NORMAL))
       else throw_msg "Font asset not found";
     Android.create_from := λ t style, OK (t.1, style);
     Android.create_named := λ name style,
       if String.eqb name "sans-serif" || String.eqb name "monospace"
       then OK (Some (name, style)) else OK None;
     Android.create_default := λ style, ("sans-serif", style);
     Android.ascent := λ paint, (- (Android.paint_textSize paint * (9 # 10)))%Q;
     Android.descent := λ paint, (Android.paint_textSize paint * (3 # 10))%Q;
     Android.StaticLayout_build := monospace_layout |}.


(** The same device on API 22, before [StaticLayout.Builder]. *)
Definition android_api22 : Android.Platform Typeface :=
  {| Android.density := Android.density android;
     Android.SDK_INT := 22;
     Android.createFromAsset := Android.createFromAsset android;
     Android.create_from := Android.create_from android;
     Android.create_named := Android.create_named android;
     Android.create_default := Android.create_default android;
     Android.ascent := Android.ascent android;
     Android.descent := Android.descent android;
     Android.StaticLayout_build := Android.StaticLayout_build android |}.

(** The same device with a layout engine that fails. *)
Definition android_failing : Android.Platform Typeface :=
  {| Android.density := Android.density android;
     Android.SDK_INT := Android.SDK_INT android;
     Android.createFromAsset := Android.createFromAsset android;
     Android.create_from := Android.create_from android;
     Android.create_named := Android.create_named android;
     Android.create_default := Android.create_default android;
     Android.ascent := Android.ascent android;
     Android.descent := Android.descent android;
     Android.StaticLayout_build := λ _, throw_msg "layout failed" |}.

(** The same with a layout engine that fails with an exception that has
    no message (as [new IllegalStateException()] has none). *)
Definition android_silent : Android.Platform Typeface :=
  {| Android.density := Android.density android;
     Android.SDK_INT := Android.SDK_INT android;
     Android.createFromAsset := Android.createFromAsset android;
     Android.create_from := Android.create_from android;
     Android.create_named := Android.create_named android;
     Android.create_default := Android.create_default android;
     Android.ascent := Android.ascent android;
     Android.descent := Android.descent android;
     Android.StaticLayout_build := λ _, Throw (mkException None) |}.

(** An iOS font: family, size, weight, traits. *)
Definition UIFont : Type := string * Q * Q * Z.

(** Ascender minus descender of a sample font: 6/5 of its size. *)
Definition natural_line_height (f : UIFont) : Q := (f.1.1.2 * (6 # 5))%Q.

(** Lines are laid out while they fit in the height of the container;
    the empty text uses one line's height and has no fragment. *)
Definition textkit_layout (text : string) (attrs : IOS.Attributes UIFont)
    (container : IOS.NSTextContainer) : result IOS.TextKitLayout :=
  let size := (IOS.NSFontAttributeName attrs).1.1.2 in
  let kern := default 0%Q (IOS.NSKernAttributeName attrs) in
  let advance := (size * (1 # 2) + kern)%Q in
  let chars := Z.of_nat (String.length text) in
  let perLine :=
    Z.max 1 (Qfloor ((IOS.container_size container).1 / advance)) in
  let wanted := (chars + perLine - 1) / perLine in
  let para := IOS.NSParagraphStyleAttributeName attrs in
  let lineHeight :=
    if Qgtb (IOS.maximumLineHeight para) 0 then IOS.maximumLineHeight para
    else natural_line_height (IOS.NSFontAttributeName attrs) in
  let fit := Qfloor ((IOS.container_size container).2 / lineHeight) in
  let limited :=
    if 0 <? IOS.maximumNumberOfLines container
    then Z.min (IOS.maximumNumberOfLines container) wanted else wanted in
  let lines := Z.min limited fit in
  OK {| IOS.usedRect_size :=
          ((advance * inject_Z (Z.min perLine chars))%Q,
           if chars =? 0 then lineHeight
           else (inject_Z lines * lineHeight)%Q);
        IOS.lineFragments := Z.to_nat lines |}.

Definition ios : IOS.Platform UIFont UIFont :=
  {| IOS.NSString_doubleValue := λ _, 0%Q;
     IOS.NSString_integerValue := λ _, 0;
     IOS.fontDescriptorWithName := λ name size, (name, size, 0%Q, 0);
     IOS.fontDescriptorWithSymbolicTraits := λ d traits,
       Some (d.1.1.1, d.1.1.2, d.1.2, Z.lor d.2 traits);
     IOS.fontWithDescriptor := λ d size,
       if String.eqb d.1.1.1 "Helvetica" || String.eqb d.1.1.1 "System"
       then Some (d.1.1.1, size, d.1.2, d.2) else None;
     IOS.systemFontOfSize_weight := λ size weight,
       Some ("System"%string, size, weight, 0);
     IOS.fontDescriptor := λ f, f;
     IOS.systemFontOfSize := λ size, ("System"%string, size, 0%Q, 0);
     IOS.layout := textkit_layout |}.

(** The same with a layout pass that raises. *)
Definition ios_failing : IOS.Platform UIFont UIFont :=
  {| IOS.NSString_doubleValue := IOS.NSString_doubleValue ios;
     IOS.NSString_integerValue := IOS.NSString_integerValue ios;
     IOS.fontDescriptorWithName := IOS.fontDescriptorWithName ios;
     IOS.fontDescriptorWithSymbolicTraits :=
       IOS.fontDescriptorWithSymbolicTraits ios;
     IOS.fontWithDescriptor := IOS.fontWithDescriptor ios;
     IOS.systemFontOfSize_weight := IOS.systemFontOfSize_weight ios;
     IOS.fontDescriptor := IOS.fontDescriptor ios;
     IOS.systemFontOfSize := IOS.systemFontOfSize ios;
     IOS.layout := λ _ _ _, throw_msg "layout failed" |}.


Definition hello_options : gmap string JsValue :=
  {[ "fontSize" := JsNumber 20; "maxWidth" := JsNumber 200;
     "fontFamily" := JsNull; "lineHeight" := JsUndefined ]}.

End Sample.

(** * Properties *)

(** ** The exception monad *)

Lemma bind_OK {A B : Type} (c : result A) (k : A → result B) (b : B) :
  c ≫= k = OK b ↔ ∃ a, c = OK a ∧ k a = OK b.
Proof.
  destruct c as [a|e]; simpl; split.
  - intros H. by exists a.
  - by intros (a' & [= <-] & H).
  - discriminate.
  - by intros (a' & [=] & _).
Qed.

(** ** The facade *)

Lemma lookup_assign (k : string) (v : JsValue) (out : gmap string JsValue)
    (key : string) :
  JS.assign k v out !! key =
    if decide (k = "__proto__") then out !! key else <[k := v]> out !! key.
Proof. unfold JS.assign. by destruct (decide _). Qed.

Lemma sanitize_lookup (options : gmap string JsValue) (key : string) :
  JS.sanitize options !! key =
    if decide (key = "__proto__") then None else
    match options !! key with
    | Some value => if JS.present value then Some value else None
    | None => None
    end.
Proof.
  unfold JS.sanitize.
  induction options as [|k v m Hk Hfold IH] using map_first_key_ind.
  - rewrite map_fold_empty, !lookup_empty. by destruct (decide _).
  - rewrite map_fold_insert_first_key by done.
    destruct (decide (k = key)) as [->|Hne].
    + rewrite lookup_insert_eq. destruct (JS.present v).
      * rewrite lookup_assign.
        destruct (decide (key = "__proto__")) as [Hp|Hp].
        -- rewrite IH. by destruct (decide (key = "__proto__")).
        -- by rewrite lookup_insert_eq.
      * rewrite IH, Hk. by destruct (decide _).
    + rewrite (lookup_insert_ne m) by done.
      destruct (JS.present v); [|done].
      rewrite lookup_assign.
      destruct (decide (k = "__proto__")); [done|].
      by rewrite lookup_insert_ne.
Qed.

(** ** Result maps *)

Section ResultMaps.

Context {Typeface : Type}.

Lemma Android_result_keys (P : Android.Platform Typeface)
    (layout : Android.Layout) (cap : Z) :
  dom (Android.extractDimensions P layout cap)
  = ({[ "width"; "height"; "lineCount" ]} : gset string).
Proof.
  unfold Android.extractDimensions, Android.putInt, Android.putDouble.
  rewrite !dom_insert_L, dom_empty_L. set_solver.
Qed.

Lemma Android_result_no_error (P : Android.Platform Typeface)
    (layout : Android.Layout) (cap : Z) :
  Android.extractDimensions P layout cap !! "error" = None.
Proof.
  apply not_elem_of_dom. rewrite Android_result_keys.
  apply not_elem_of_union; split; [apply not_elem_of_union; split|];
    apply not_elem_of_singleton; discriminate.
Qed.

Lemma Android_performMeasure_no_error (P : Android.Platform Typeface)
    text options result :
  Android.performMeasure P text options = OK result →
  result !! "error" = None.
Proof.
  unfold Android.performMeasure. rewrite bind_OK.
  intros (request & _ & H). apply bind_OK in H as (layout & _ & [= <-]).
  apply Android_result_no_error.
Qed.

End ResultMaps.

Lemma IOS_result_keys (l : IOS.TextKitLayout) :
  dom (IOS.resultDictionary l)
  = ({[ "width"; "height"; "lineCount" ]} : gset string).
Proof.
  unfold IOS.resultDictionary.
  rewrite !dom_insert_L, dom_empty_L. set_solver.
Qed.

Lemma IOS_result_no_error (l : IOS.TextKitLayout) :
  IOS.resultDictionary l !! "error" = None.
Proof.
  apply not_elem_of_dom. rewrite IOS_result_keys.
  apply not_elem_of_union; split; [apply not_elem_of_union; split|];
    apply not_elem_of_singleton; discriminate.
Qed.

Lemma IOS_performMeasure_no_error {UIFont UIFontDescriptor : Type}
    (P : IOS.Platform UIFont UIFontDescriptor) text options result :
  IOS.RNTMPerformMeasure P text options = OK result →
  result !! "error" = None.
Proof.
  unfold IOS.RNTMPerformMeasure. rewrite bind_OK.
  intros (request & _ & H). apply bind_OK in H as (l & _ & [= <-]).
  apply IOS_result_no_error.
Qed.

(** [RNTMPerformMeasure] reads a null text and the empty text alike, so
    the [text ?: @""] of the blocking method changes nothing. *)
Lemma IOS_performMeasure_null_text {UIFont UIFontDescriptor : Type}
    (P : IOS.Platform UIFont UIFontDescriptor) text options :
  IOS.RNTMPerformMeasure P (Some (default ""%string text)) options
  = IOS.RNTMPerformMeasure P text options.
Proof. by destruct text. Qed.

(** ** The two entry points *)

Lemma Android_entry_points_agree {Typeface : Type}
    (P : Android.Platform Typeface) text options result :
  Android.measureText P text options = JS.Resolved result ↔
  Android.measureTextSync P text options = result ∧ result !! "error" = None.
Proof.
  unfold Android.measureText, Android.measureTextSync.
  destruct (Android.performMeasure P text options) as [r|e] eqn:Hr.
  - split.
    + intros [= <-]. split; [done|]. by eapply Android_performMeasure_no_error.
    + by intros [<- _].
  - split; [discriminate|]. intros [<- H].
    unfold Android.putString in H. by rewrite lookup_insert_eq in H.
Qed.

Lemma IOS_entry_points_agree {UIFont UIFontDescriptor : Type}
    (P : IOS.Platform UIFont UIFontDescriptor) text options result :
  IOS.measureText P text options = JS.Resolved result ↔
  IOS.measureTextSync P text options = result ∧ result !! "error" = None.
Proof.
  unfold IOS.measureText, IOS.measureTextSync.
  rewrite IOS_performMeasure_null_text.
  destruct (IOS.RNTMPerformMeasure P text (default ∅ options)) as [r|e] eqn:Hr.
  - split.
    + intros [= <-]. split; [done|]. by eapply IOS_performMeasure_no_error.
    + by intros [<- _].
  - split; [discriminate|]. intros [<- H].
    by rewrite lookup_singleton_eq in H.
Qed.

(** C1.  On either platform, for every text and every options object
    (null ones included at the native methods), the promise of
    [measureText] resolves with a result exactly when [measureTextSync]
    returns that same result as a success (a map without the [error] key):
    width, height and lineCount are identical.  The same holds for the two
    functions of the JS facade, which hand identical arguments to the two
    native methods. *)
Theorem measureText_measureTextSync_identical :
  (∀ (Typeface : Type) (P : Android.Platform Typeface) text options result,
     Android.measureText P text options = JS.Resolved result ↔
     Android.measureTextSync P text options = result ∧ result !! "error" = None)
  ∧ (∀ (UIFont UIFontDescriptor : Type)
       (P : IOS.Platform UIFont UIFontDescriptor) text options result,
     IOS.measureText P text options = JS.Resolved result ↔
     IOS.measureTextSync P text options = result ∧ result !! "error" = None)
  ∧ (∀ (Typeface : Type) (P : Android.Platform Typeface) text options result,
     JS.measureText (Android.module P) text options = JS.Resolved result ↔
     JS.measureTextSync (Android.module P) text options = result
     ∧ result !! "error" = None)
  ∧ (∀ (UIFont UIFontDescriptor : Type)
       (P : IOS.Platform UIFont UIFontDescriptor) text options result,
     JS.measureText (IOS.module P) text options = JS.Resolved result ↔
     JS.measureTextSync (IOS.module P) text options = result
     ∧ result !! "error" = None).
Proof.
  split; [|split; [|split]]; intros.
  - apply Android_entry_points_agree.
  - apply IOS_entry_points_agree.
  - apply (Android_entry_points_agree P).
  - apply (IOS_entry_points_agree P).
Qed.


(** ** Option defaults *)

Lemma sanitize_absent (o : gmap string JsValue) (key : string) :
  JS.sanitize o !! key = None ↔
  JS.absent (o !! key) = true ∨ key = "__proto__".
Proof.
  rewrite sanitize_lookup.
  destruct (decide (key = "__proto__")) as [Hp|Hp]; [by split; auto|].
  destruct (o !! key) as [[]|]; simpl; split;
    first [ by left | by intros [?|?] ].
Qed.

Lemma sanitize_present (o : gmap string JsValue) (key : string) (v : JsValue) :
  JS.sanitize o !! key = Some v →
  o !! key = Some v ∧ v ≠ JsUndefined ∧ v ≠ JsNull.
Proof.
  rewrite sanitize_lookup.
  destruct (decide (key = "__proto__")); [done|].
  destruct (o !! key) as [[]|]; simpl; intros [= <-]; done.
Qed.

Lemma bridge_sanitize_lookup (o : gmap string JsValue) (key : string) :
  bridge (JS.sanitize o) !! key =
    if decide (key = "__proto__") then None else
    match o !! key with
    | Some v => if JS.present v then to_native v else None
    | None => None
    end.
Proof.
  unfold bridge. rewrite lookup_omap, sanitize_lookup.
  destruct (decide (key = "__proto__")); [done|].
  destruct (o !! key) as [[]|]; done.
Qed.

Lemma bridge_sanitize_absent (o : gmap string JsValue) (key : string) :
  JS.absent (o !! key) = true → bridge (JS.sanitize o) !! key = None.
Proof.
  rewrite bridge_sanitize_lookup.
  destruct (decide (key = "__proto__")); [done|].
  destruct (o !! key) as [[]|]; simpl; congruence.
Qed.

Lemma bridge_sanitize_not_null (o : gmap string JsValue) (key : string) v :
  bridge (JS.sanitize o) !! key = Some v → v ≠ DynNull.
Proof.
  rewrite bridge_sanitize_lookup.
  destruct (decide (key = "__proto__")); [done|].
  destruct (o !! key) as [[]|]; simpl; intros [= <-]; done.
Qed.

(** The four null-safe helpers of the Android module return the default
    for a key that is missing or holds the native null. *)
Lemma Android_getters_default (m : gmap string Dynamic) (key : string) :
  m !! key = None ∨ m !! key = Some DynNull →
  (∀ def, Android.getFloat m key def = OK def)
  ∧ (∀ def, Android.getInt m key def = OK def)
  ∧ (∀ def, Android.getBool m key def = OK def)
  ∧ (∀ def, Android.getString m key def = OK def).
Proof.
  unfold Android.getFloat, Android.getInt, Android.getBool, Android.getString,
    Android.hasKey, Android.isNull.
  intros [-> | ->]; done.
Qed.

Lemma Android_parseOptions_OK (m : gmap string Dynamic) (cfg : Android.Options) :
  Android.parseOptions m = OK cfg →
  Android.getFloat m "fontSize" 14%Q = OK (Android.fontSize cfg)
  ∧ Android.getString m "fontFamily" None = OK (Android.fontFamily cfg)
  ∧ Android.getString m "fontWeight" (Some "normal"%string)
    = OK (Android.fontWeight cfg)
  ∧ Android.getString m "fontStyle" (Some "normal"%string)
    = OK (Android.fontStyle cfg)
  ∧ Android.getFloat m "letterSpacing" 0%Q = OK (Android.letterSpacing cfg)
  ∧ Android.getFloat m "lineHeight" 0%Q = OK (Android.lineHeight cfg)
  ∧ Android.getFloat m "maxWidth" 0%Q = OK (Android.maxWidth cfg)
  ∧ Android.getFloat m "maxHeight" 0%Q = OK (Android.maxHeight cfg)
  ∧ Android.getInt m "numberOfLines" 0 = OK (Android.numberOfLines cfg)
  ∧ Android.getBool m "includeFontPadding" true
    = OK (Android.includeFontPad cfg).
Proof.
  unfold Android.parseOptions. intros H.
  repeat (apply bind_OK in H as (? & ? & H)).
  injection H as <-. simpl. repeat split; assumption.
Qed.

Lemma IOS_options_default {UIFont UIFontDescriptor : Type}
    (P : IOS.Platform UIFont UIFontDescriptor)
    (m : gmap string Dynamic) (key : string) :
  m !! key = None →
  (∀ def, IOS.doubleOption P m key def = OK def)
  ∧ (∀ def, IOS.integerOption P m key def = OK def).
Proof. unfold IOS.doubleOption, IOS.integerOption. by intros ->. Qed.

Lemma IOS_parseOptions_OK {UIFont UIFontDescriptor : Type}
    (P : IOS.Platform UIFont UIFontDescriptor)
    (m : gmap string Dynamic) (cfg : IOS.Options) :
  IOS.parseOptions P m = OK cfg →
  IOS.doubleOption P m "fontSize" 14%Q = OK (IOS.fontSize cfg)
  ∧ IOS.fontFamily cfg = m !! "fontFamily"
  ∧ IOS.fontWeight cfg = default (DynString "normal") (m !! "fontWeight")
  ∧ IOS.fontStyle cfg = default (DynString "normal") (m !! "fontStyle")
  ∧ IOS.doubleOption P m "letterSpacing" 0%Q = OK (IOS.letterSpacing cfg)
  ∧ IOS.doubleOption P m "lineHeight" 0%Q = OK (IOS.lineHeight cfg)
  ∧ IOS.doubleOption P m "maxWidth" 0%Q = OK (IOS.maxWidth cfg)
  ∧ IOS.doubleOption P m "maxHeight" 0%Q = OK (IOS.maxHeight cfg)
  ∧ IOS.integerOption P m "numberOfLines" 0 = OK (IOS.maxLines cfg).
Proof.
  unfold IOS.parseOptions. intros H.
  repeat (apply bind_OK in H as (? & ? & H)).
  injection H as <-. simpl. repeat split; assumption.
Qed.

Ltac default_field Hget Habs :=
  let Hnone := fresh in
  pose proof (bridge_sanitize_absent _ _ Habs) as Hnone;
  unfold Android.getFloat, Android.getInt, Android.getBool, Android.getString,
    Android.hasKey, IOS.doubleOption, IOS.integerOption in Hget;
  rewrite Hnone in Hget; simpl in Hget; congruence.

(** C2.  An option whose key is missing, [undefined] or [null] in the
    caller's object is stripped by [sanitize] (whose result lacks exactly
    those keys and the key [__proto__], and agrees with the caller's object
    on every key it has), so that the bridged map holds neither the key nor
    a null; the Android helpers return the default for a
    missing key and for a native null alike; and on both platforms every
    such option is parsed to its documented default (fontSize 14, no
    fontFamily, fontWeight and fontStyle "normal", letterSpacing, lineHeight,
    maxWidth, maxHeight and numberOfLines 0, includeFontPadding true), with
    parsing succeeding outright when all of them are left out. *)
Theorem absent_options_take_defaults (o : gmap string JsValue) :
  let native := bridge (JS.sanitize o) in
  (∀ key, JS.sanitize o !! key = None ↔
          JS.absent (o !! key) = true ∨ key = "__proto__")
  ∧ (∀ key v, JS.sanitize o !! key = Some v →
       o !! key = Some v ∧ v ≠ JsUndefined ∧ v ≠ JsNull)
  ∧ (∀ key v, native !! key = Some v → v ≠ DynNull)
  ∧ (∀ (m : gmap string Dynamic) key,
       m !! key = None ∨ m !! key = Some DynNull →
       (∀ def, Android.getFloat m key def = OK def)
       ∧ (∀ def, Android.getInt m key def = OK def)
       ∧ (∀ def, Android.getBool m key def = OK def)
       ∧ (∀ def, Android.getString m key def = OK def))
  ∧ (∀ cfg, Android.parseOptions native = OK cfg →
       (JS.absent (o !! "fontSize") = true → Android.fontSize cfg = 14%Q)
       ∧ (JS.absent (o !! "fontFamily") = true → Android.fontFamily cfg = None)
       ∧ (JS.absent (o !! "fontWeight") = true →
          Android.fontWeight cfg = Some "normal"%string)
       ∧ (JS.absent (o !! "fontStyle") = true →
          Android.fontStyle cfg = Some "normal"%string)
       ∧ (JS.absent (o !! "letterSpacing") = true →
          Android.letterSpacing cfg = 0%Q)
       ∧ (JS.absent (o !! "lineHeight") = true → Android.lineHeight cfg = 0%Q)
       ∧ (JS.absent (o !! "maxWidth") = true → Android.maxWidth cfg = 0%Q)
       ∧ (JS.absent (o !! "maxHeight") = true → Android.maxHeight cfg = 0%Q)
       ∧ (JS.absent (o !! "numberOfLines") = true →
          Android.numberOfLines cfg = 0)
       ∧ (JS.absent (o !! "includeFontPadding") = true →
          Android.includeFontPad cfg = true))
  ∧ (∀ (UIFont UIFontDescriptor : Type)
       (P : IOS.Platform UIFont UIFontDescriptor) cfg,
       IOS.parseOptions P native = OK cfg →
       (JS.absent (o !! "fontSize") = true → IOS.fontSize cfg = 14%Q)
       ∧ (JS.absent (o !! "fontFamily") = true → IOS.fontFamily cfg = None)
       ∧ (JS.absent (o !! "fontWeight") = true →
          IOS.fontWeight cfg = DynString "normal")
       ∧ (JS.absent (o !! "fontStyle") = true →
          IOS.fontStyle cfg = DynString "normal")
       ∧ (JS.absent (o !! "letterSpacing") = true → IOS.letterSpacing cfg = 0%Q)
       ∧ (JS.absent (o !! "lineHeight") = true → IOS.lineHeight cfg = 0%Q)
       ∧ (JS.absent (o !! "maxWidth") = true → IOS.maxWidth cfg = 0%Q)
       ∧ (JS.absent (o !! "maxHeight") = true → IOS.maxHeight cfg = 0%Q)
       ∧ (JS.absent (o !! "numberOfLines") = true → IOS.maxLines cfg = 0))
  ∧ ((∀ key, JS.absent (o !! key) = true) →
       Android.parseOptions native
       = OK (Android.mkOptions 14 None (Some "normal"%string)
               (Some "normal"%string) 0 0 0 0 0 true)
       ∧ ∀ (UIFont UIFontDescriptor : Type)
           (P : IOS.Platform UIFont UIFontDescriptor),
           IOS.parseOptions P native
           = OK (IOS.mkOptions 14 None (DynString "normal")
                   (DynString "normal") 0 0 0 0 0)).
Proof.
  intros native. subst native.
  split; [apply sanitize_absent|].
  split; [apply sanitize_present|].
  split; [apply bridge_sanitize_not_null|].
  split; [apply Android_getters_default|].
  split; [|split].
  - intros cfg H. apply Android_parseOptions_OK in H.
    destruct H as (H1 & H2 & H3 & H4 & H5 & H6 & H7 & H8 & H9 & H10).
    repeat split; intros Habs.
    + default_field H1 Habs.
    + default_field H2 Habs.
    + default_field H3 Habs.
    + default_field H4 Habs.
    + default_field H5 Habs.
    + default_field H6 Habs.
    + default_field H7 Habs.
    + default_field H8 Habs.
    + default_field H9 Habs.
    + default_field H10 Habs.
  - intros UIFont UIFontDescriptor P cfg H. apply IOS_parseOptions_OK in H.
    destruct H as (H1 & H2 & H3 & H4 & H5 & H6 & H7 & H8 & H9).
    repeat split; intros Habs.
    + default_field H1 Habs.
    + by rewrite H2, (bridge_sanitize_absent _ _ Habs).
    + by rewrite H3, (bridge_sanitize_absent _ _ Habs).
    + by rewrite H4, (bridge_sanitize_absent _ _ Habs).
    + default_field H5 Habs.
    + default_field H6 Habs.
    + default_field H7 Habs.
    + default_field H8 Habs.
    + default_field H9 Habs.
  - intros Hall.
    assert (Hnone : ∀ key, bridge (JS.sanitize o) !! key = None)
      by (intros key; apply bridge_sanitize_absent, Hall).
    split.
    + unfold Android.parseOptions, Android.getFloat, Android.getString,
        Android.getInt, Android.getBool, Android.hasKey.
      by rewrite !Hnone.
    + intros UIFont UIFontDescriptor P.
      unfold IOS.parseOptions, IOS.doubleOption, IOS.integerOption.
      by rewrite !Hnone.
Qed.

Lemma absent_options_take_defaults_witness :
  ∃ cfg,
    Android.parseOptions (bridge (JS.sanitize Sample.hello_options)) = OK cfg
    ∧ Android.fontFamily cfg = None
    ∧ Android.lineHeight cfg = 0%Q
    ∧ Android.includeFontPad cfg = true.
Proof.
  eexists. split; [vm_compute; reflexivity|].
  destruct (absent_options_take_defaults Sample.hello_options)
    as (_ & _ & _ & _ & H & _).
  destruct (H _ ltac:(vm_compute; reflexivity))
    as (_ & Hfamily & _ & _ & _ & Hline & _ & _ & _ & Hpad).
  split; [|split].
  - apply Hfamily. vm_compute. reflexivity.
  - apply Hline. vm_compute. reflexivity.
  - apply Hpad. vm_compute. reflexivity.
Defined.

(** ** The layout request *)

Lemma Android_layoutRequest_OK {Typeface : Type} (P : Android.Platform Typeface)
    text options req :
  Android.layoutRequest P text options = OK req →
  ∃ o typeface,
    Android.parseOptions (default ∅ options) = OK o
    ∧ req = (Android.staticLayoutArgs P (default ""%string text)
               (Android.buildPaint P o typeface) (Android.maxWidthPx P o)
               (Android.lineHeight o * Android.density P)%Q
               (Android.numberOfLines o) (Android.includeFontPad o),
             Android.maxHeightPx P o).
Proof.
  unfold Android.layoutRequest. intros H.
  apply bind_OK in H as (o & Ho & H).
  apply bind_OK in H as (b & _ & H).
  apply bind_OK in H as (t & _ & H).
  injection H as <-. by exists o, t.
Qed.

Lemma Android_staticLayoutArgs_width {Typeface : Type}
    (P : Android.Platform Typeface) text paint w lh n pad :
  Android.sl_width (Android.staticLayoutArgs P text paint w lh n pad) = w.
Proof. unfold Android.staticLayoutArgs. by destruct (_ <=? _). Qed.

Lemma Android_getFloat_zero (m : gmap string Dynamic) key x :
  zero_or_absent (m !! key) → Android.getFloat m key 0%Q = OK x → (x == 0)%Q.
Proof.
  unfold zero_or_absent, Android.getFloat, Android.hasKey, Android.isNull,
    Android.ReadableMap_getDouble.
  destruct (m !! key) as [[]|]; simpl; try done; intros Hz [= <-]; done.
Qed.

Lemma Qgtb_zero (x : Q) : (x == 0)%Q → Qgtb x 0 = false.
Proof.
  intros H. unfold Qgtb.
  assert (Qle_bool x 0 = true) as ->; [|done].
  apply Qle_bool_iff. rewrite H. apply Qle_refl.
Qed.

Lemma IOS_layoutRequest_OK {UIFont UIFontDescriptor : Type}
    (P : IOS.Platform UIFont UIFontDescriptor) text options req :
  IOS.layoutRequest P text options = OK req →
  ∃ o font,
    IOS.parseOptions P options = OK o
    ∧ req.1.2 = IOS.attributes font (IOS.unbounded o)
    ∧ req.2 = IOS.textContainer (IOS.unbounded o).
Proof.
  unfold IOS.layoutRequest. intros H.
  apply bind_OK in H as (o & Ho & H).
  apply bind_OK in H as (b & _ & H).
  apply bind_OK in H as (f & _ & H).
  injection H as <-. by exists o, f.
Qed.

Lemma IOS_doubleOption_zero {UIFont UIFontDescriptor : Type}
    (P : IOS.Platform UIFont UIFontDescriptor) (m : gmap string Dynamic) key x :
  zero_or_absent (m !! key) → IOS.doubleOption P m key 0%Q = OK x → (x == 0)%Q.
Proof.
  unfold zero_or_absent, IOS.doubleOption.
  destruct (m !! key) as [[]|]; simpl; try done; intros Hz [= <-]; done.
Qed.

Lemma Qle_bool_zero (x : Q) : (x == 0)%Q → Qle_bool x 0 = true.
Proof. intros H. apply Qle_bool_iff. rewrite H. apply Qle_refl. Qed.

Lemma CGFLOAT_MAX_pos : (0 < IOS.CGFLOAT_MAX)%Q.
Proof. by vm_compute. Qed.

Lemma IOS_unbounded_pos (o : IOS.Options) :
  (0 < IOS.maxWidth (IOS.unbounded o))%Q ∧ (0 < IOS.maxHeight (IOS.unbounded o))%Q.
Proof.
  unfold IOS.unbounded; simpl. split.
  - destruct (Qle_bool (IOS.maxWidth o) 0) eqn:E; [apply CGFLOAT_MAX_pos|].
    apply Qnot_le_lt. intros Hle. apply Qle_bool_iff in Hle. congruence.
  - destruct (Qle_bool (IOS.maxHeight o) 0) eqn:E; [apply CGFLOAT_MAX_pos|].
    apply Qnot_le_lt. intros Hle. apply Qle_bool_iff in Hle. congruence.
Qed.

(** C3.  Whenever a request reaches the layout engine: on Android a
    [maxWidth] that is left out or 0 makes the wrap width handed to
    [StaticLayout] [Integer.MAX_VALUE], and a [maxHeight] that is left out or
    0 makes the height cap [Integer.MAX_VALUE], under which the measured
    height is never clamped; on iOS such a [maxWidth] / [maxHeight] makes the
    corresponding side of the text container [CGFLOAT_MAX], and no side of
    the container is ever 0. *)
Theorem unbounded_dimension_is_engine_maximum :
  (∀ (Typeface : Type) (P : Android.Platform Typeface) text options req,
     Android.layoutRequest P text options = OK req →
     (zero_or_absent (default ∅ options !! "maxWidth") →
        Android.sl_width req.1 = Integer_MAX_VALUE
        ∧ Android.sl_width req.1 ≠ 0)
     ∧ (zero_or_absent (default ∅ options !! "maxHeight") →
        req.2 = Integer_MAX_VALUE
        ∧ ∀ layout, Android.measuredHeight layout req.2
                    = inject_Z (Android.getHeight layout)))
  ∧ (∀ (UIFont UIFontDescriptor : Type)
       (P : IOS.Platform UIFont UIFontDescriptor) text options req,
     IOS.layoutRequest P text options = OK req →
     (zero_or_absent (options !! "maxWidth") →
        (IOS.container_size req.2).1 = IOS.CGFLOAT_MAX)
     ∧ (zero_or_absent (options !! "maxHeight") →
        (IOS.container_size req.2).2 = IOS.CGFLOAT_MAX)
     ∧ (0 < (IOS.container_size req.2).1)%Q
     ∧ (0 < (IOS.container_size req.2).2)%Q).
Proof.
  split.
  - intros Typeface P text options req H.
    apply Android_layoutRequest_OK in H as (o & t & Ho & ->).
    apply Android_parseOptions_OK in Ho
      as (_ & _ & _ & _ & _ & _ & Hw & Hh & _).
    simpl. rewrite Android_staticLayoutArgs_width. split.
    + intros Hz. pose proof (Android_getFloat_zero _ _ _ Hz Hw) as H0.
      unfold Android.maxWidthPx. rewrite (Qgtb_zero _ H0). done.
    + intros Hz. pose proof (Android_getFloat_zero _ _ _ Hz Hh) as H0.
      unfold Android.maxHeightPx. rewrite (Qgtb_zero _ H0). done.
  - intros UIFont UIFontDescriptor P text options req H.
    apply IOS_layoutRequest_OK in H as (o & f & Ho & _ & ->).
    apply IOS_parseOptions_OK in Ho
      as (_ & _ & _ & _ & _ & _ & Hw & Hh & _).
    pose proof (IOS_unbounded_pos o) as [Hpw Hph].
    simpl. repeat split; try done.
    + intros Hz. pose proof (IOS_doubleOption_zero _ _ _ _ Hz Hw) as H0.
      by rewrite (Qle_bool_zero _ H0).
    + intros Hz. pose proof (IOS_doubleOption_zero _ _ _ _ Hz Hh) as H0.
      by rewrite (Qle_bool_zero _ H0).
Qed.

Lemma unbounded_dimension_is_engine_maximum_witness :
  ∃ req,
    Android.layoutRequest Sample.android (Some "Hello world"%string)
      (Some (bridge (JS.sanitize {[ "fontSize" := JsNumber 20;
                                    "maxWidth" := JsNumber 0 ]}))) = OK req
    ∧ Android.sl_width req.1 = 2147483647
    ∧ req.2 = 2147483647.
Proof.
  destruct (Android.layoutRequest Sample.android (Some "Hello world"%string)
              (Some (bridge (JS.sanitize {[ "fontSize" := JsNumber 20;
                                            "maxWidth" := JsNumber 0 ]}))))
    as [req|e] eqn:Hreq; [|vm_compute in Hreq; discriminate].
  exists req. split; [reflexivity|].
  destruct unbounded_dimension_is_engine_maximum as [H _].
  destruct (H _ _ _ _ _ Hreq) as [Hw Hh].
  split.
  - apply Hw. vm_compute. reflexivity.
  - apply Hh. vm_compute. exact I.
Defined.

(** ** Reading the result *)

Lemma Android_result_lookup {Typeface : Type} (P : Android.Platform Typeface)
    (layout : Android.Layout) (cap : Z) :
  Android.extractDimensions P layout cap !! "width"
  = Some (DynNumber (Android.measuredWidth layout / Android.density P)%Q)
  ∧ Android.extractDimensions P layout cap !! "height"
    = Some (DynNumber (Android.measuredHeight layout cap / Android.density P)%Q)
  ∧ Android.extractDimensions P layout cap !! "lineCount"
    = Some (DynNumber (inject_Z (Z.of_nat (Android.getLineCount layout)))).
Proof.
  unfold Android.extractDimensions, Android.putInt, Android.putDouble.
  split; [|split].
  - rewrite lookup_insert_ne by done. rewrite lookup_insert_ne by done.
    by rewrite lookup_insert_eq.
  - rewrite lookup_insert_ne by done. by rewrite lookup_insert_eq.
  - by rewrite lookup_insert_eq.
Qed.

Lemma IOS_result_lookup (l : IOS.TextKitLayout) :
  IOS.resultDictionary l !! "width"
  = Some (DynNumber (ceil (IOS.usedRect_size l).1))
  ∧ IOS.resultDictionary l !! "height"
    = Some (DynNumber (ceil (IOS.usedRect_size l).2))
  ∧ IOS.resultDictionary l !! "lineCount"
    = Some (DynNumber (inject_Z (Z.of_nat (IOS.lineFragments l)))).
Proof.
  unfold IOS.resultDictionary.
  split; [|split].
  - by rewrite lookup_insert_eq.
  - rewrite lookup_insert_ne by done. by rewrite lookup_insert_eq.
  - rewrite lookup_insert_ne by done. rewrite lookup_insert_ne by done.
    by rewrite lookup_insert_eq.
Qed.

Lemma Android_performMeasure_OK {Typeface : Type} (P : Android.Platform Typeface)
    text options req layout :
  Android.layoutRequest P text options = OK req →
  Android.StaticLayout_build P req.1 = OK layout →
  Android.performMeasure P text options
  = OK (Android.extractDimensions P layout req.2).
Proof.
  intros Hreq Hlayout. unfold Android.performMeasure.
  rewrite Hreq. simpl. rewrite Hlayout. done.
Qed.


(** ** Line height *)

Lemma Qgtb_true (x y : Q) : Qgtb x y = true ↔ (y < x)%Q.
Proof.
  unfold Qgtb. rewrite negb_true_iff. split.
  - intros H. apply Qnot_le_lt. intros Hle.
    apply Qle_bool_iff in Hle. congruence.
  - intros H. destruct (Qle_bool x y) eqn:E; [|done].
    apply Qle_bool_iff in E. exfalso. by apply (Qlt_not_le _ _ H).
Qed.




Lemma ceil_bounds (x : Q) : (x <= ceil x)%Q ∧ (ceil x < x + 1)%Q.
Proof.
  unfold ceil. split; [apply Qle_ceiling|].
  pose proof (Qceiling_lt x) as H.
  rewrite <- (Z.add_opp_r (Qceiling x) 1), inject_Z_plus in H.
  apply (Qplus_lt_l _ _ (inject_Z (- (1)))).
  eapply Qlt_le_trans; [exact H|].
  assert (E : (x + 1 + inject_Z (- (1)) == x)%Q)
    by (change (inject_Z (- (1))) with (- (1))%Q; ring).
  rewrite E. apply Qle_refl.
Qed.






(** ** Width and height of the result *)

(** C5 at a failing input: on the sample Android device (density 2),
    "Hello" at fontSize 11 is laid out as one line 55 px wide and 27 px high;
    the module reports width 55/2 and height 27/2, neither rounded up to a
    whole dp (28 and 14), whereas the iOS module applies [ceil] to both.  In
    general the Android result is the widest line and the (possibly clamped)
    layout height divided by the density, without rounding. *)
Theorem android_dimensions_not_rounded_up :
  (∃ req layout w h,
     Android.layoutRequest Sample.android (Some "Hello"%string)
       (Some {[ "fontSize" := DynNumber 11 ]}) = OK req
     ∧ Android.StaticLayout_build Sample.android req.1 = OK layout
     ∧ Android.getLineCount layout = 1%nat
     ∧ (Android.getLineWidth layout 0 == 55)%Q
     ∧ Android.getHeight layout = 27
     ∧ Android.measureTextSync Sample.android (Some "Hello"%string)
         (Some {[ "fontSize" := DynNumber 11 ]}) !! "width"
       = Some (DynNumber w)
     ∧ Android.measureTextSync Sample.android (Some "Hello"%string)
         (Some {[ "fontSize" := DynNumber 11 ]}) !! "height"
       = Some (DynNumber h)
     ∧ (w == 55 # 2)%Q ∧ (h == 27 # 2)%Q
     ∧ ¬ (w == ceil w)%Q ∧ ¬ (h == ceil h)%Q)
  ∧ (∀ (Typeface : Type) (P : Android.Platform Typeface) layout cap,
       Android.extractDimensions P layout cap !! "width"
       = Some (DynNumber (Android.measuredWidth layout / Android.density P)%Q)
       ∧ Android.extractDimensions P layout cap !! "height"
         = Some (DynNumber
                   (Android.measuredHeight layout cap / Android.density P)%Q))
  ∧ (∀ l : IOS.TextKitLayout,
       IOS.resultDictionary l !! "width"
       = Some (DynNumber (ceil (IOS.usedRect_size l).1))
       ∧ IOS.resultDictionary l !! "height"
         = Some (DynNumber (ceil (IOS.usedRect_size l).2))).
Proof.
  split; [|split].
  - destruct (Android.layoutRequest Sample.android (Some "Hello"%string)
                (Some {[ "fontSize" := DynNumber 11 ]})) as [req|e] eqn:Hreq;
      [|vm_compute in Hreq; discriminate].
    destruct (Android.StaticLayout_build Sample.android req.1)
      as [layout|e] eqn:Hlayout;
      [|vm_compute in Hreq; injection Hreq as <-;
        vm_compute in Hlayout; discriminate].
    exists req, layout.
    unfold Android.measureTextSync.
    rewrite (Android_performMeasure_OK _ _ _ _ _ Hreq Hlayout).
    destruct (Android_result_lookup Sample.android layout req.2)
      as (Hw & Hh & _).
    eexists _, _.
    split; [reflexivity|]. split; [exact Hlayout|].
    vm_compute in Hreq. injection Hreq as <-.
    vm_compute in Hlayout. injection Hlayout as <-.
    split; [reflexivity|]. split; [reflexivity|]. split; [reflexivity|].
    split; [exact Hw|]. split; [exact Hh|].
    vm_compute. repeat split; discriminate.
  - intros Typeface P layout cap.
    destruct (Android_result_lookup P layout cap) as (Hw & Hh & _). done.
  - intros l. destruct (IOS_result_lookup l) as (Hw & Hh & _). done.
Qed.

(** ** The height cap *)









(** ** Typeface resolution *)

Lemma try_catch_found {A : Type} (c : result (option A)) :
  try_catch c (λ _, OK None) = OK (found c).
Proof. by destruct c. Qed.

Lemma Android_resolveTypeface_chain {Typeface : Type}
    (P : Android.Platform Typeface) (fontFamily : option string) style :
  Android.resolveTypeface P fontFamily style
  = OK (first_success
          (match fontFamily with
           | Some ff =>
               if Android.isEmpty ff then []
               else [ found (Android.bundled_font P ff style);
                      found (Android.create_named P ff style) ]
           | None => []
           end)
          (Android.create_default P style)).
Proof.
  unfold Android.resolveTypeface, Android.fromAssets_attempt,
    Android.systemFont_attempt.
  destruct fontFamily as [ff|]; [|done].
  destruct (Android.isEmpty ff); [done|]. simpl negb. cbv iota.
  rewrite !try_catch_found. simpl.
  destruct (found (Android.bundled_font P ff style)); [done|].
  by destruct (found (Android.create_named P ff style)).
Qed.

Lemma Android_getString_some (m : gmap string Dynamic) key def v :
  Android.getString m key (Some def) = OK v → is_Some v.
Proof.
  unfold Android.getString, Android.ReadableMap_getString.
  destruct (Android.hasKey m key && negb (Android.isNull m key)).
  - destruct (m !! key) as [[]|]; intros [= <-]; eauto.
  - intros [= <-]; eauto.
Qed.

Lemma Android_isBold_total (m : gmap string Dynamic) (o : Android.Options) :
  Android.parseOptions m = OK o →
  ∃ b, Android.isBold (Android.fontWeight o) = OK b.
Proof.
  intros Ho. apply Android_parseOptions_OK in Ho as (_ & _ & Hw & _).
  apply Android_getString_some in Hw as [w Hw].
  unfold Android.isBold, Android.numericWeightIsBold. rewrite Hw.
  destruct (equalsIgnoreCase "bold" w); [eauto|].
  destruct (Integer_parseInt (trim w)); eauto.
Qed.

Lemma Android_layoutRequest_total {Typeface : Type}
    (P : Android.Platform Typeface) text options o :
  Android.parseOptions (default ∅ options) = OK o →
  ∃ req, Android.layoutRequest P text options = OK req.
Proof.
  intros Ho. destruct (Android_isBold_total _ _ Ho) as [b Hb].
  unfold Android.layoutRequest. rewrite Ho. simpl. rewrite Hb. simpl.
  rewrite Android_resolveTypeface_chain. simpl. eauto.
Qed.

Lemma IOS_buildFont_chain {UIFont UIFontDescriptor : Type}
    (P : IOS.Platform UIFont UIFontDescriptor) (o : IOS.Options)
    (isItalic : bool) (ff : option string) :
  IOS.fontFamily o = DynString <$> ff →
  IOS.buildFont P o isItalic
  = OK (first_success
          [ match ff with
            | Some name =>
                if 0 <? Z.of_nat (String.length name)
                then IOS.familyFont P name (IOS.fontSize o)
                       (IOS.uiFontWeight (IOS.fontWeight o)) isItalic
                else None
            | None => None
            end;
            IOS.systemFont P (IOS.fontSize o)
              (IOS.uiFontWeight (IOS.fontWeight o)) isItalic ]
          (IOS.systemFontOfSize P (IOS.fontSize o))).
Proof.
  intros Hff. unfold IOS.buildFont. rewrite Hff.
  destruct ff as [name|]; simpl.
  - destruct (0 <? Z.of_nat (String.length name)); simpl.
    + destruct (IOS.familyFont P name _ _ _); [done|].
      by destruct (IOS.systemFont P _ _ _).
    + by destruct (IOS.systemFont P _ _ _).
  - by destruct (IOS.systemFont P _ _ _).
Qed.

Lemma IOS_layoutRequest_total {UIFont UIFontDescriptor : Type}
    (P : IOS.Platform UIFont UIFontDescriptor) text options o ff style :
  IOS.parseOptions P options = OK o →
  IOS.fontFamily o = DynString <$> ff →
  IOS.fontStyle o = DynString style →
  ∃ req, IOS.layoutRequest P text options = OK req.
Proof.
  intros Ho Hff Hstyle. unfold IOS.layoutRequest. rewrite Ho. simpl.
  rewrite Hstyle. simpl.
  rewrite (IOS_buildFont_chain P (IOS.unbounded o) _ ff) by done.
  simpl. eauto.
Qed.




(** ** Font weight *)

Ltac forall_items tac :=
  repeat (apply List.Forall_cons; [tac|]); apply List.Forall_nil.

Lemma ascii_lower_eq (x c : ascii) :
  x ∈ [ "b"; "o"; "l"; "d" ]%char →
  Ascii.eqb (ascii_lower x) (ascii_lower c) = true →
  is_space c = false ∧ digit_of c = None ∧ c ≠ "-"%char ∧ c ≠ "+"%char.
Proof.
  intros Hx.
  repeat (apply elem_of_cons in Hx as [-> | Hx];
          [destruct c as [[] [] [] [] [] [] [] []]; vm_compute;
           intros H; first [discriminate H | repeat split; discriminate]|]).
  by apply elem_of_nil in Hx.
Qed.

(** A string that equals "bold" up to case is not a decimal number. *)
Lemma bold_is_not_a_number (s : string) :
  equalsIgnoreCase "bold" s = true → Integer_parseInt (trim s) = None.
Proof.
  destruct s as [|c1 [|c2 [|c3 [|c4 [|c5 s]]]]]; cbn [equalsIgnoreCase];
    rewrite ?andb_false_r; try discriminate.
  rewrite !andb_true_iff. intros (H1 & H2 & H3 & H4 & _).
  apply ascii_lower_eq in H1 as (S1 & D1 & M1 & P1);
    [|repeat first [apply list_elem_of_here | apply list_elem_of_further]].
  apply ascii_lower_eq in H2 as (S2 & _);
    [|repeat first [apply list_elem_of_here | apply list_elem_of_further]].
  apply ascii_lower_eq in H3 as (S3 & _);
    [|repeat first [apply list_elem_of_here | apply list_elem_of_further]].
  apply ascii_lower_eq in H4 as (S4 & _);
    [|repeat first [apply list_elem_of_here | apply list_elem_of_further]].
  unfold trim. cbn [trim_left]. rewrite S1.
  cbn [trim_right]. rewrite S4. cbv iota.
  unfold Integer_parseInt.
  destruct (Ascii.eqb_spec c1 "-"%char) as [->|_]; [done|].
  destruct (Ascii.eqb_spec c1 "+"%char) as [->|_]; [done|].
  assert (E : match String c1 (String c2 (String c3 (String c4 ""))) with
              | String "-"%char rest => (true, rest)
              | String "+"%char rest => (false, rest)
              | _ => (false, String c1 (String c2 (String c3 (String c4 ""))))
              end = (false, String c1 (String c2 (String c3 (String c4 ""))))).
  { destruct c1 as [[] [] [] [] [] [] [] []]; try reflexivity; congruence. }
  rewrite E. cbn [snd fst parse_digits]. by rewrite D1.
Qed.

Lemma Android_isBold_spec (s : string) :
  Android.isBold (Some s)
  = OK (match Integer_parseInt (trim s) with
        | Some n => 600 <=? n
        | None => equalsIgnoreCase "bold" s
        end).
Proof.
  unfold Android.isBold, Android.numericWeightIsBold.
  destruct (equalsIgnoreCase "bold" s) eqn:E.
  - by rewrite (bold_is_not_a_number s E).
  - by destruct (Integer_parseInt (trim s)).
Qed.

Lemma IOS_objectForKey_key {A : Type} (d : list (string * A)) (key : string) v :
  IOS.objectForKey d key = Some v → key ∈ d.*1.
Proof.
  induction d as [|[k w] d IH]; simpl; [done|].
  destruct (String.eqb k key) eqn:E.
  - apply String.eqb_eq in E as ->. intros _. apply list_elem_of_here.
  - intros H. apply list_elem_of_further. by apply IH.
Qed.

(** C8, as stated, fails.  On Android "560" selects the face "normal"
    selects (tier 400) although 700 is the nearer tier.  On iOS "850"
    resolves to the weight of "normal", lighter than both neighbouring tiers
    800 and 900; and a named family is given the bold trait only from
    [UIFontWeightBold] up, so that "600" leaves it regular, as "normal" does,
    although 700 is nearer to 600 than 400 is. *)
Lemma font_weight_nearest_tier_counterexample :
  Integer_parseInt "560" = Some 560
  ∧ Android.isBold (Some "560"%string) = OK false
  ∧ Android.isBold (Some "560"%string) = Android.isBold (Some "normal"%string)
  ∧ Android.isBold (Some "560"%string) ≠ Android.isBold (Some "bold"%string)
  ∧ Z.abs (560 - 700) < Z.abs (560 - 400)
  ∧ IOS.uiFontWeight (DynString "850") = IOS.uiFontWeight (DynString "normal")
  ∧ (IOS.uiFontWeight (DynString "850") < IOS.uiFontWeight (DynString "800"))%Q
  ∧ (IOS.uiFontWeight (DynString "850") < IOS.uiFontWeight (DynString "900"))%Q
  ∧ (∀ isItalic,
       IOS.symbolicTraits (IOS.uiFontWeight (DynString "600")) isItalic
       = IOS.symbolicTraits (IOS.uiFontWeight (DynString "normal")) isItalic
       ∧ IOS.symbolicTraits (IOS.uiFontWeight (DynString "600")) isItalic
         ≠ IOS.symbolicTraits (IOS.uiFontWeight (DynString "bold")) isItalic)
  ∧ Z.abs (600 - 700) < Z.abs (600 - 400).
Proof.
  split; [reflexivity|]. split; [reflexivity|]. split; [reflexivity|].
  split; [discriminate|]. split; [lia|]. split; [reflexivity|].
  split; [reflexivity|]. split; [reflexivity|].
  split; [|lia]. intros []; split; first [reflexivity | discriminate].
Qed.

(** C8, amended.  "bold" resolves as the weight 700 does and "normal" as
    400 does.  On Android a weight that reads as a number selects the bold
    face exactly when the number is at least 600, and any other weight only
    when it is "bold" in some case; for the nine weights "100" to "900" this
    is the nearer of the two tiers 400 and 700.  On iOS each of "100" to
    "900" resolves to its own [UIFontWeight], heavier numbers to strictly
    heavier weights, and every weight that is not one of these nine strings,
    "bold" or "normal" to the regular weight; a named family is given the
    bold trait exactly from the weight 700 up.  On both platforms "900" and
    "bold" resolve to at least the bold tier and strictly heavier than
    "normal": on Android they select the bold style and "normal" the regular
    one, on iOS their weights are at least [UIFontWeightBold] and above that
    of "normal", and with a named family both carry the bold trait and
    "normal" does not. *)
Theorem font_weight_resolution :
  ((∀ s : string,
      Android.isBold (Some s)
      = OK (match Integer_parseInt (trim s) with
            | Some n => 600 <=? n
            | None => equalsIgnoreCase "bold" s
            end))
   ∧ Android.isBold (Some "bold"%string) = Android.isBold (Some "700"%string)
   ∧ Android.isBold (Some "normal"%string) = Android.isBold (Some "400"%string)
   ∧ Forall (λ sw, Android.isBold (Some sw.1)
                   = OK (Z.abs (sw.2 - 700) <? Z.abs (sw.2 - 400)))
       numeric_weights
   ∧ Android.isBold (Some "900"%string) = OK true
   ∧ Android.isBold (Some "bold"%string) = OK true
   ∧ Android.isBold (Some "normal"%string) = OK false
   ∧ ∀ isItalic,
       Android.typefaceStyle true isItalic
       = (if isItalic then Android.BOLD_ITALIC else Android.BOLD)
       ∧ Android.typefaceStyle false isItalic
         = (if isItalic then Android.ITALIC else Android.NORMAL))
  ∧ ((∀ v : Dynamic,
        IOS.uiFontWeight v = IOS.UIFontWeightRegular
        ∨ ∃ s, v = DynString s
               ∧ s ∈ [ "100"; "200"; "300"; "400"; "500"; "600"; "700"; "800";
                       "900"; "bold"; "normal" ]%string)
     ∧ (λ sw, IOS.uiFontWeight (DynString sw.1)) <$> numeric_weights
       = [ IOS.UIFontWeightUltraLight; IOS.UIFontWeightThin;
           IOS.UIFontWeightLight; IOS.UIFontWeightRegular;
           IOS.UIFontWeightMedium; IOS.UIFontWeightSemibold;
           IOS.UIFontWeightBold; IOS.UIFontWeightHeavy;
           IOS.UIFontWeightBlack ]
     ∧ StronglySorted Qlt
         ((λ sw, IOS.uiFontWeight (DynString sw.1)) <$> numeric_weights)
     ∧ Forall (λ sw, ∀ isItalic,
                 negb (Z.land (IOS.symbolicTraits
                                 (IOS.uiFontWeight (DynString sw.1)) isItalic)
                              IOS.UIFontDescriptorTraitBold =? 0)
                 = (700 <=? sw.2))
         numeric_weights
     ∧ IOS.uiFontWeight (DynString "bold") = IOS.uiFontWeight (DynString "700")
     ∧ IOS.uiFontWeight (DynString "normal")
       = IOS.uiFontWeight (DynString "400")
     ∧ (IOS.UIFontWeightBold <= IOS.uiFontWeight (DynString "900"))%Q
     ∧ (IOS.UIFontWeightBold <= IOS.uiFontWeight (DynString "bold"))%Q
     ∧ (IOS.uiFontWeight (DynString "normal")
        < IOS.uiFontWeight (DynString "bold"))%Q
     ∧ (IOS.uiFontWeight (DynString "normal")
        < IOS.uiFontWeight (DynString "900"))%Q
     ∧ ∀ isItalic,
         Z.land (IOS.symbolicTraits (IOS.uiFontWeight (DynString "900")) isItalic)
                IOS.UIFontDescriptorTraitBold = IOS.UIFontDescriptorTraitBold
         ∧ Z.land (IOS.symbolicTraits (IOS.uiFontWeight (DynString "bold")) isItalic)
                  IOS.UIFontDescriptorTraitBold = IOS.UIFontDescriptorTraitBold
         ∧ Z.land (IOS.symbolicTraits (IOS.uiFontWeight (DynString "normal")) isItalic)
                  IOS.UIFontDescriptorTraitBold = 0).
Proof.
  split.
  - split; [apply Android_isBold_spec|].
    split; [reflexivity|]. split; [reflexivity|].
    split; [forall_items ltac:(vm_compute; reflexivity)|].
    split; [reflexivity|]. split; [reflexivity|]. split; [reflexivity|].
    intros []; split; reflexivity.
  - split.
    { intros v. unfold IOS.uiFontWeight, IOS.weightMap_lookup.
      destruct v as [| |x|s| |]; try (by left).
      destruct (IOS.objectForKey IOS.weightMap s) as [w|] eqn:E; [|by left].
      right. exists s. split; [done|].
      by apply IOS_objectForKey_key in E. }
    split; [reflexivity|].
    split.
    { repeat (apply SSorted_cons; [|forall_items ltac:(reflexivity)]).
      apply SSorted_nil. }
    split; [forall_items ltac:(intros []; vm_compute; reflexivity)|].
    split; [reflexivity|]. split; [reflexivity|].
    split; [by vm_compute|]. split; [by vm_compute|].
    split; [by vm_compute|]. split; [by vm_compute|].
    intros []; repeat split; reflexivity.
Qed.

(** ** Failure reporting *)

Lemma Android_failure {Typeface : Type} (P : Android.Platform Typeface)
    text options e :
  Android.performMeasure P text options = Throw e →
  Android.measureText P text options
  = JS.Rejected "MEASURE_ERROR" (getMessage e)
  ∧ Android.measureTextSync P text options
    = {[ "error" := match getMessage e with
                     | Some m => DynString m
                     | None => DynNull
                     end ]}.
Proof.
  intros H. unfold Android.measureText, Android.measureTextSync.
  rewrite H. split; [done|].
  unfold Android.putString. apply insert_empty.
Qed.

Lemma IOS_failure {UIFont UIFontDescriptor : Type}
    (P : IOS.Platform UIFont UIFontDescriptor) text options e :
  IOS.RNTMPerformMeasure P text (default ∅ options) = Throw e →
  IOS.measureText P text options
  = JS.Rejected "MEASURE_ERROR" (getMessage e)
  ∧ IOS.measureTextSync P text options
    = {[ "error" := DynString (default "Unknown error"%string (getMessage e)) ]}.
Proof.
  intros H. unfold IOS.measureText, IOS.measureTextSync.
  rewrite IOS_performMeasure_null_text, H. done.
Qed.

Lemma error_only (v : Dynamic) :
  dom ({[ "error" := v ]} : gmap string Dynamic) = ({[ "error" ]} : gset string)
  ∧ ({[ "error" := v ]} : gmap string Dynamic) !! "width" = None
  ∧ ({[ "error" := v ]} : gmap string Dynamic) !! "height" = None
  ∧ ({[ "error" := v ]} : gmap string Dynamic) !! "lineCount" = None.
Proof.
  split; [apply dom_singleton_L|].
  repeat split; by apply lookup_singleton_ne.
Qed.

(** C9, as stated, fails on Android when the exception of the engine has no
    message: the promise is rejected with the code and no message, and the
    [error] field of the blocking result holds the null value, not a
    string. *)
Lemma layout_failure_message_counterexample :
  ∃ req,
    Android.layoutRequest Sample.android_silent (Some "Hello"%string) None
    = OK req
    ∧ Android.StaticLayout_build Sample.android_silent req.1
      = Throw (mkException None)
    ∧ Android.measureText Sample.android_silent (Some "Hello"%string) None
      = JS.Rejected "MEASURE_ERROR" None
    ∧ Android.measureTextSync Sample.android_silent (Some "Hello"%string) None
      !! "error" = Some DynNull
    ∧ ∀ s, Android.measureTextSync Sample.android_silent (Some "Hello"%string)
             None !! "error" ≠ Some (DynString s).
Proof.
  destruct (Android.layoutRequest Sample.android_silent (Some "Hello"%string)
              None) as [req|e] eqn:Hreq; [|vm_compute in Hreq; discriminate].
  exists req. split; [reflexivity|]. split; [reflexivity|].
  assert (H : Android.performMeasure Sample.android_silent
                (Some "Hello"%string) None = Throw (mkException None)).
  { unfold Android.performMeasure. by rewrite Hreq. }
  destruct (Android_failure _ _ _ _ H) as [Ha Hs].
  rewrite Ha, Hs. split; [reflexivity|].
  split; [apply lookup_singleton_eq|].
  intros s. by rewrite lookup_singleton_eq.
Qed.

(** C9, amended.  When the layout engine fails with an exception [e] on the
    request built from the arguments, on either platform: the promise of
    [measureText] is rejected with the code "MEASURE_ERROR" and the message of
    [e], if it has one, and is not resolved; [measureTextSync] returns a map
    whose only key is [error] - no width, height or lineCount - which holds
    the message of [e] as a string whenever [e] has one, and on iOS the string
    "Unknown error" when it has none. *)
Theorem layout_failure_is_reported :
  (∀ (Typeface : Type) (P : Android.Platform Typeface) text options req e,
     Android.layoutRequest P text options = OK req →
     Android.StaticLayout_build P req.1 = Throw e →
     Android.measureText P text options
     = JS.Rejected "MEASURE_ERROR" (getMessage e)
     ∧ (∀ r, Android.measureText P text options ≠ JS.Resolved r)
     ∧ dom (Android.measureTextSync P text options)
       = ({[ "error" ]} : gset string)
     ∧ Android.measureTextSync P text options !! "width" = None
     ∧ Android.measureTextSync P text options !! "height" = None
     ∧ Android.measureTextSync P text options !! "lineCount" = None
     ∧ (∀ m, getMessage e = Some m →
             Android.measureTextSync P text options !! "error"
             = Some (DynString m)))
  ∧ (∀ (UIFont UIFontDescriptor : Type)
       (P : IOS.Platform UIFont UIFontDescriptor) text options req e,
     IOS.layoutRequest P text (default ∅ options) = OK req →
     IOS.layout P req.1.1 req.1.2 req.2 = Throw e →
     IOS.measureText P text options
     = JS.Rejected "MEASURE_ERROR" (getMessage e)
     ∧ (∀ r, IOS.measureText P text options ≠ JS.Resolved r)
     ∧ dom (IOS.measureTextSync P text options)
       = ({[ "error" ]} : gset string)
     ∧ IOS.measureTextSync P text options !! "width" = None
     ∧ IOS.measureTextSync P text options !! "height" = None
     ∧ IOS.measureTextSync P text options !! "lineCount" = None
     ∧ (∀ m, getMessage e = Some m →
             IOS.measureTextSync P text options !! "error"
             = Some (DynString m))
     ∧ (getMessage e = None →
        IOS.measureTextSync P text options !! "error"
        = Some (DynString "Unknown error"))).
Proof.
  split.
  - intros Typeface P text options req e Hreq Hfail.
    assert (H : Android.performMeasure P text options = Throw e).
    { unfold Android.performMeasure. rewrite Hreq. simpl. by rewrite Hfail. }
    destruct (Android_failure P text options e H) as [Ha Hs].
    rewrite Ha, Hs.
    destruct (error_only (match getMessage e with
                          | Some m => DynString m
                          | None => DynNull
                          end)) as (Hd & Hw & Hh & Hn).
    split; [done|]. split; [done|]. split; [done|].
    split; [done|]. split; [done|]. split; [done|].
    intros m ->. apply lookup_singleton_eq.
  - intros UIFont UIFontDescriptor P text options req e Hreq Hfail.
    assert (H : IOS.RNTMPerformMeasure P text (default ∅ options) = Throw e).
    { unfold IOS.RNTMPerformMeasure. rewrite Hreq. simpl. by rewrite Hfail. }
    destruct (IOS_failure P text options e H) as [Ha Hs].
    rewrite Ha, Hs.
    destruct (error_only
                (DynString (default "Unknown error"%string (getMessage e))))
      as (Hd & Hw & Hh & Hn).
    split; [done|]. split; [done|]. split; [done|].
    split; [done|]. split; [done|]. split; [done|].
    split.
    + intros m ->. apply lookup_singleton_eq.
    + intros ->. apply lookup_singleton_eq.
Qed.

Lemma layout_failure_is_reported_witness :
  (Android.measureText Sample.android_failing (Some "Hello"%string) None
   = JS.Rejected "MEASURE_ERROR" (Some "layout failed"%string)
   ∧ Android.measureTextSync Sample.android_failing (Some "Hello"%string) None
     !! "error" = Some (DynString "layout failed")
   ∧ Android.measureTextSync Sample.android_failing (Some "Hello"%string) None
     !! "width" = None)
  ∧ (IOS.measureText Sample.ios_failing (Some "Hello"%string) None
     = JS.Rejected "MEASURE_ERROR" (Some "layout failed"%string)
     ∧ IOS.measureTextSync Sample.ios_failing (Some "Hello"%string) None
       !! "error" = Some (DynString "layout failed")
     ∧ IOS.measureTextSync Sample.ios_failing (Some "Hello"%string) None
       !! "width" = None).
Proof.
  split.
  - destruct (Android.layoutRequest Sample.android_failing
                (Some "Hello"%string) None) as [req|e] eqn:Hreq;
      [|vm_compute in Hreq; discriminate].
    destruct layout_failure_is_reported as [H _].
    destruct (H _ Sample.android_failing (Some "Hello"%string) None req
                (mkException (Some "layout failed"%string)) Hreq eq_refl)
      as (Ha & _ & _ & Hw & _ & _ & He).
    split; [exact Ha|]. split; [exact (He _ eq_refl) | exact Hw].
  - destruct (IOS.layoutRequest Sample.ios_failing (Some "Hello"%string)
                (default ∅ None)) as [req|e] eqn:Hreq;
      [|vm_compute in Hreq; discriminate].
    destruct layout_failure_is_reported as [_ H].
    destruct (H _ _ Sample.ios_failing (Some "Hello"%string) None req
                (mkException (Some "layout failed"%string)) Hreq eq_refl)
      as (Ha & _ & _ & Hw & _ & _ & He & _).
    split; [exact Ha|]. split; [exact (He _ eq_refl) | exact Hw].
Defined.

(** * Further properties of the code *)

(** ** sanitize *)

(** X1.  [sanitize] is idempotent, and its result is a sub-object of its
    argument: every entry it returns is an entry of the input, unchanged. *)
Theorem sanitize_idempotent (o : gmap string JsValue) :
  JS.sanitize (JS.sanitize o) = JS.sanitize o
  ∧ JS.sanitize o ⊆ o.
Proof.
  split.
  - apply map_eq. intros key. rewrite !sanitize_lookup.
    destruct (decide (key = "__proto__")); [done|].
    destruct (o !! key) as [v|]; [|done].
    destruct (JS.present v) eqn:E; [by rewrite E | done].
  - apply map_subseteq_spec. intros key v H.
    by apply sanitize_present in H as [H _].
Qed.

(** X2.  [sanitize] returns its argument unchanged exactly when no entry
    holds [undefined] or [null] and no entry is keyed [__proto__]; in
    particular it keeps every other key with a value, whether or not the
    key is an option the adapters know. *)
Theorem sanitize_fixpoint (o : gmap string JsValue) :
  JS.sanitize o = o ↔
  ∀ key v, o !! key = Some v → JS.present v = true ∧ key ≠ "__proto__".
Proof.
  split.
  - intros H key v Hv. rewrite <- H, sanitize_lookup in Hv.
    destruct (decide (key = "__proto__")); [done|].
    destruct (o !! key) as [w|]; [|done].
    destruct (JS.present w) eqn:E; [|done]. by injection Hv as <-.
  - intros H. apply map_eq. intros key. rewrite sanitize_lookup.
    destruct (o !! key) as [v|] eqn:Hv.
    + destruct (H key v Hv) as [-> Hne]. by destruct (decide _).
    + by destruct (decide _).
Qed.

(** X3.  Passing an option as [null] or [undefined] is the same as leaving
    it out, even when it replaces a value: [sanitize] of the object with
    [key: null] is [sanitize] of the object without [key], and both facade
    functions hand the native module identical arguments. *)
Theorem null_option_is_omitted (o : gmap string JsValue) (key : string) :
  JS.sanitize (<[key := JsNull]> o) = JS.sanitize (delete key o)
  ∧ JS.sanitize (<[key := JsUndefined]> o) = JS.sanitize (delete key o)
  ∧ ∀ (N : JS.NativeModule) text,
      JS.measureTextSync N text (Some (<[key := JsNull]> o))
      = JS.measureTextSync N text (Some (delete key o))
      ∧ JS.measureText N text (Some (<[key := JsUndefined]> o))
        = JS.measureText N text (Some (delete key o)).
Proof.
  assert (H : ∀ v, JS.present v = false →
                   JS.sanitize (<[key := v]> o) = JS.sanitize (delete key o)).
  { intros v Hv. apply map_eq. intros k. rewrite !sanitize_lookup.
    destruct (decide (k = "__proto__")); [done|].
    destruct (decide (key = k)) as [->|Hne].
    - by rewrite lookup_insert_eq, lookup_delete_eq, Hv.
    - by rewrite lookup_insert_ne, lookup_delete_ne. }
  split; [by apply H|]. split; [by apply H|].
  intros N text. unfold JS.measureTextSync, JS.measureText. simpl.
  by rewrite !H.
Qed.

(** ** Linking *)

(** X4.  When no module is registered under [ReactNativeTextMeasure], both
    public functions throw the linking error for every text and every
    options argument, a [null] one included; [measureText] throws it
    synchronously instead of returning a rejected promise. *)
Theorem unlinked_module_throws (Number_toString : Q → string)
    (NativeModules : gmap string JS.NativeModule)
    (text : JsValue) (options : Linking.OptionsArg) :
  NativeModules !! "ReactNativeTextMeasure" = None →
  Linking.measureText Number_toString NativeModules text options
  = Throw (mkException (Some Linking.LINKING_ERROR))
  ∧ Linking.measureTextSync Number_toString NativeModules text options
    = Throw (mkException (Some Linking.LINKING_ERROR)).
Proof.
  intros H.
  unfold Linking.measureText, Linking.measureTextSync,
    Linking.NativeTextMeasure.
  by rewrite H.
Qed.

Lemma unlinked_module_throws_witness :
  Linking.measureText (λ _, "0"%string) ∅ (JsString "Hello")
    Linking.NullOptions
  = Throw (mkException (Some Linking.LINKING_ERROR)).
Proof.
  apply (unlinked_module_throws (λ _, "0"%string) ∅ (JsString "Hello")
           Linking.NullOptions).
  apply lookup_empty.
Defined.

Lemma linked_module_delegates_aux (Number_toString : Q → string)
    (NativeModules : gmap string JS.NativeModule) (N : JS.NativeModule)
    (text : JsValue) (options : Linking.OptionsArg) :
  NativeModules !! "ReactNativeTextMeasure" = Some N →
  Linking.measureTextSync Number_toString NativeModules text options
  = match options with
    | Linking.NullOptions => Throw Linking.TypeError
    | Linking.Omitted =>
        OK (JS.measureTextSync N (Linking.String_of Number_toString text)
              (Some ∅))
    | Linking.Object o =>
        OK (JS.measureTextSync N (Linking.String_of Number_toString text)
              (Some o))
    end
  ∧ Linking.measureText Number_toString NativeModules text options
    = match options with
      | Linking.NullOptions => Throw Linking.TypeError
      | Linking.Omitted =>
          OK (JS.measureText N (Linking.String_of Number_toString text)
                (Some ∅))
      | Linking.Object o =>
          OK (JS.measureText N (Linking.String_of Number_toString text)
                (Some o))
      end.
Proof.
  intros H.
  unfold Linking.measureText, Linking.measureTextSync,
    Linking.NativeTextMeasure.
  rewrite H. by destruct options.
Qed.



(** X6.  Registering the package links the facade: the module is
    registered under the very name the facade looks up, so with
    [ReactNativeTextMeasurePackage] first among the registered modules the
    public functions reach the Android module's methods with the sanitized
    options; the package contributes no view manager. *)
Theorem package_links_facade {Typeface ViewManager : Type}
    (Number_toString : Q → string)
    (reactContext : Android.Platform Typeface)
    (others : list (string * JS.NativeModule))
    (text : string) (o : gmap string JsValue) :
  let registered :=
    Package.NativeModules (Package.createNativeModules reactContext ++ others) in
  Linking.measureTextSync Number_toString registered (JsString text)
    (Linking.Object o)
  = OK (Android.measureTextSync reactContext (Some text)
          (Some (bridge (JS.sanitize o))))
  ∧ Linking.measureText Number_toString registered (JsString text)
      (Linking.Object o)
    = OK (Android.measureText reactContext (Some text)
            (Some (bridge (JS.sanitize o))))
  ∧ Package.createViewManagers (ViewManager := ViewManager) reactContext = [].
Proof.
  intros registered.
  assert (H : registered !! "ReactNativeTextMeasure"
              = Some (Android.module reactContext)).
  { subst registered. unfold Package.NativeModules, Package.createNativeModules.
    simpl. apply lookup_insert_eq. }
  destruct (linked_module_delegates_aux Number_toString registered _
              (JsString text) (Linking.Object o) H) as [Hs Ha].
  by rewrite Hs, Ha.
Qed.

(** ** Option types *)

Ltac option_key :=
  repeat first [ apply list_elem_of_here | apply list_elem_of_further ].

Lemma Android_getFloat_OK (m : gmap string Dynamic) key def :
  (∃ x, Android.getFloat m key def = OK x)
  ↔ Typing.number_or_absent (m !! key) = true.
Proof.
  unfold Android.getFloat, Android.hasKey, Android.isNull,
    Android.ReadableMap_getDouble, Typing.number_or_absent.
  destruct (m !! key) as [[]|]; simpl; split; eauto;
    try discriminate; intros [? ?]; discriminate.
Qed.

Lemma Android_getInt_OK (m : gmap string Dynamic) key def :
  (∃ x, Android.getInt m key def = OK x)
  ↔ Typing.number_or_absent (m !! key) = true.
Proof.
  unfold Android.getInt, Android.hasKey, Android.isNull,
    Android.ReadableMap_getInt, Typing.number_or_absent.
  destruct (m !! key) as [[]|]; simpl; split; eauto;
    try discriminate; intros [? ?]; discriminate.
Qed.

Lemma Android_getBool_OK (m : gmap string Dynamic) key def :
  (∃ x, Android.getBool m key def = OK x)
  ↔ Typing.boolean_or_absent (m !! key) = true.
Proof.
  unfold Android.getBool, Android.hasKey, Android.isNull,
    Android.ReadableMap_getBoolean, Typing.boolean_or_absent.
  destruct (m !! key) as [[]|]; simpl; split; eauto;
    try discriminate; intros [? ?]; discriminate.
Qed.

Lemma Android_getString_OK (m : gmap string Dynamic) key def :
  (∃ x, Android.getString m key def = OK x)
  ↔ Typing.string_or_absent (m !! key) = true.
Proof.
  unfold Android.getString, Android.hasKey, Android.isNull,
    Android.ReadableMap_getString, Typing.string_or_absent.
  destruct (m !! key) as [[]|]; simpl; split; eauto;
    try discriminate; intros [? ?]; discriminate.
Qed.

Lemma Android_parseOptions_typed (m : gmap string Dynamic) :
  (∃ o, Android.parseOptions m = OK o) ↔ Typing.android_options m = true.
Proof.
  unfold Typing.android_options. rewrite !andb_true_iff. split.
  - intros [o H]. apply Android_parseOptions_OK in H
      as (H1 & H2 & H3 & H4 & H5 & H6 & H7 & H8 & H9 & H10).
    repeat split;
      first [ solve [eapply Android_getFloat_OK; eauto]
            | solve [eapply Android_getString_OK; eauto]
            | solve [eapply Android_getInt_OK; eauto]
            | solve [eapply Android_getBool_OK; eauto] ].
  - intros (((((((((H1 & H2) & H3) & H4) & H5) & H6) & H7) & H8) & H9) & H10).
    apply (Android_getFloat_OK _ _ 14%Q) in H1 as [x1 H1].
    apply (Android_getString_OK _ _ None) in H2 as [x2 H2].
    apply (Android_getString_OK _ _ (Some "normal"%string)) in H3 as [x3 H3].
    apply (Android_getString_OK _ _ (Some "normal"%string)) in H4 as [x4 H4].
    apply (Android_getFloat_OK _ _ 0%Q) in H5 as [x5 H5].
    apply (Android_getFloat_OK _ _ 0%Q) in H6 as [x6 H6].
    apply (Android_getFloat_OK _ _ 0%Q) in H7 as [x7 H7].
    apply (Android_getFloat_OK _ _ 0%Q) in H8 as [x8 H8].
    apply (Android_getInt_OK _ _ 0) in H9 as [x9 H9].
    apply (Android_getBool_OK _ _ true) in H10 as [x10 H10].
    unfold Android.parseOptions.
    rewrite H1, H2, H3, H4, H5, H6, H7, H8, H9, H10. simpl. eauto.
Qed.

Lemma Android_parse_failure_propagates {Typeface : Type}
    (P : Android.Platform Typeface) text options e :
  Android.parseOptions (default ∅ options) = Throw e →
  Android.performMeasure P text options = Throw e.
Proof.
  intros H. unfold Android.performMeasure, Android.layoutRequest.
  by rewrite H.
Qed.

(** X7.  The Android module can read an options map exactly when each of
    the ten options it knows is missing, null, or of the type it expects (a
    number for the six numeric options, a string for fontFamily, fontWeight
    and fontStyle, a boolean for includeFontPadding); then, and only then,
    the request reaches the layout engine. *)
Theorem android_options_are_type_checked {Typeface : Type}
    (P : Android.Platform Typeface) (text : option string)
    (m : gmap string Dynamic) :
  ((∃ o, Android.parseOptions m = OK o) ↔ Typing.android_options m = true)
  ∧ ((∃ req, Android.layoutRequest P text (Some m) = OK req)
     ↔ Typing.android_options m = true).
Proof.
  split; [apply Android_parseOptions_typed|].
  rewrite <- Android_parseOptions_typed. split.
  - intros [req H]. apply Android_layoutRequest_OK in H as (o & _ & Ho & _).
    eauto.
  - intros [o Ho]. by eapply Android_layoutRequest_total.
Qed.

(** X8.  An option of the wrong type makes every Android measurement
    fail, whatever the text, the device and the engine: the promise is
    rejected with "MEASURE_ERROR", the blocking call returns a map with the
    single key [error], and the failure is the same exception on every
    platform, since it is raised before fonts or layout are touched. *)
Theorem android_type_error_is_reported (m : gmap string Dynamic) :
  Typing.android_options m = false →
  ∃ e, ∀ (Typeface : Type) (P : Android.Platform Typeface) text,
    Android.performMeasure P text (Some m) = Throw e
    ∧ Android.measureText P text (Some m)
      = JS.Rejected "MEASURE_ERROR" (getMessage e)
    ∧ dom (Android.measureTextSync P text (Some m))
      = ({[ "error" ]} : gset string).
Proof.
  intros Hbad.
  destruct (Android.parseOptions m) as [o|e] eqn:Hparse.
  { assert (Typing.android_options m = true)
      by (apply Android_parseOptions_typed; eauto).
    congruence. }
  exists e. intros Typeface P text.
  assert (H : Android.performMeasure P text (Some m) = Throw e)
    by by apply Android_parse_failure_propagates.
  destruct (Android_failure P text (Some m) e H) as [Ha Hs].
  split; [done|]. split; [done|].
  rewrite Hs. apply dom_singleton_L.
Qed.

Lemma android_type_error_is_reported_witness :
  ∃ e, Android.performMeasure Sample.android (Some "Hello"%string)
         (Some {[ "fontSize" := DynString "big" ]}) = Throw e
       ∧ Android.performMeasure Sample.android_failing None
           (Some {[ "fontSize" := DynString "big" ]}) = Throw e.
Proof.
  destruct (android_type_error_is_reported {[ "fontSize" := DynString "big" ]})
    as [e He]; [vm_compute; reflexivity|].
  exists e. split.
  - apply (He _ Sample.android (Some "Hello"%string)).
  - apply (He _ Sample.android_failing None).
Defined.

(** ** Keys the adapters read *)

Lemma Android_parseOptions_ext (m1 m2 : gmap string Dynamic) :
  (∀ key, key ∈ Typing.android_keys → m1 !! key = m2 !! key) →
  Android.parseOptions m1 = Android.parseOptions m2.
Proof.
  intros H.
  unfold Android.parseOptions, Android.getFloat, Android.getInt,
    Android.getBool, Android.getString, Android.hasKey, Android.isNull,
    Android.ReadableMap_getDouble, Android.ReadableMap_getInt,
    Android.ReadableMap_getBoolean, Android.ReadableMap_getString.
  repeat match goal with
         | |- context [m1 !! ?k] => rewrite (H k) by option_key
         end.
  done.
Qed.

Lemma Android_performMeasure_ext {Typeface : Type}
    (P : Android.Platform Typeface) text (m1 m2 : gmap string Dynamic) :
  Android.parseOptions m1 = Android.parseOptions m2 →
  Android.performMeasure P text (Some m1)
  = Android.performMeasure P text (Some m2).
Proof.
  intros H. unfold Android.performMeasure, Android.layoutRequest. simpl.
  by rewrite H.
Qed.

(** X9.  The Android module reads ten keys and ignores every other one:
    two options maps that agree on those keys give the same result, success
    or failure, on both entry points; an unknown key is never an error. *)
Theorem android_ignores_unknown_keys {Typeface : Type}
    (P : Android.Platform Typeface) text (m1 m2 : gmap string Dynamic) :
  (∀ key, key ∈ Typing.android_keys → m1 !! key = m2 !! key) →
  Android.performMeasure P text (Some m1)
  = Android.performMeasure P text (Some m2)
  ∧ Android.measureText P text (Some m1) = Android.measureText P text (Some m2)
  ∧ Android.measureTextSync P text (Some m1)
    = Android.measureTextSync P text (Some m2).
Proof.
  intros H.
  assert (E : Android.performMeasure P text (Some m1)
              = Android.performMeasure P text (Some m2))
    by (apply Android_performMeasure_ext, Android_parseOptions_ext, H).
  unfold Android.measureText, Android.measureTextSync. by rewrite E.
Qed.

Lemma android_ignores_unknown_keys_witness :
  Android.measureTextSync Sample.android (Some "Hello"%string)
    (Some {[ "fontSize" := DynNumber 20; "color" := DynString "red" ]})
  = Android.measureTextSync Sample.android (Some "Hello"%string)
      (Some {[ "fontSize" := DynNumber 20 ]}).
Proof.
  apply (android_ignores_unknown_keys Sample.android (Some "Hello"%string)
           {[ "fontSize" := DynNumber 20; "color" := DynString "red" ]}
           {[ "fontSize" := DynNumber 20 ]}).
  intros key Hkey.
  repeat (apply elem_of_cons in Hkey as [-> | Hkey]; [reflexivity|]).
  by apply elem_of_nil in Hkey.
Defined.

Lemma Android_getters_null (m : gmap string Dynamic) (null key : string) :
  (∀ def, Android.getFloat (<[null := DynNull]> m) key def
          = Android.getFloat (delete null m) key def)
  ∧ (∀ def, Android.getInt (<[null := DynNull]> m) key def
            = Android.getInt (delete null m) key def)
  ∧ (∀ def, Android.getBool (<[null := DynNull]> m) key def
            = Android.getBool (delete null m) key def)
  ∧ (∀ def, Android.getString (<[null := DynNull]> m) key def
            = Android.getString (delete null m) key def).
Proof.
  unfold Android.getFloat, Android.getInt, Android.getBool, Android.getString,
    Android.hasKey, Android.isNull, Android.ReadableMap_getDouble,
    Android.ReadableMap_getInt, Android.ReadableMap_getBoolean,
    Android.ReadableMap_getString.
  destruct (decide (null = key)) as [->|Hne].
  - rewrite lookup_insert_eq, lookup_delete_eq. done.
  - rewrite lookup_insert_ne, lookup_delete_ne by done. done.
Qed.

(** X10.  The Android module itself treats a null option as a missing one,
    for every key and without the facade's help: an options map in which a
    key holds the native null gives the same result as the map without that
    key. *)
Theorem android_null_option_is_missing {Typeface : Type}
    (P : Android.Platform Typeface) text (m : gmap string Dynamic)
    (key : string) :
  Android.parseOptions (<[key := DynNull]> m)
  = Android.parseOptions (delete key m)
  ∧ Android.performMeasure P text (Some (<[key := DynNull]> m))
    = Android.performMeasure P text (Some (delete key m))
  ∧ Android.measureTextSync P text (Some (<[key := DynNull]> m))
    = Android.measureTextSync P text (Some (delete key m)).
Proof.
  assert (E : Android.parseOptions (<[key := DynNull]> m)
              = Android.parseOptions (delete key m)).
  { unfold Android.parseOptions.
    repeat match goal with
           | |- context [Android.getFloat (<[key := DynNull]> m) ?k ?d] =>
               rewrite (proj1 (Android_getters_null m key k) d)
           | |- context [Android.getInt (<[key := DynNull]> m) ?k ?d] =>
               rewrite (proj1 (proj2 (Android_getters_null m key k)) d)
           | |- context [Android.getBool (<[key := DynNull]> m) ?k ?d] =>
               rewrite (proj1 (proj2 (proj2 (Android_getters_null m key k))) d)
           | |- context [Android.getString (<[key := DynNull]> m) ?k ?d] =>
               rewrite (proj2 (proj2 (proj2 (Android_getters_null m key k))) d)
           end.
    done. }
  split; [exact E|].
  pose proof (Android_performMeasure_ext P text _ _ E) as E'.
  split; [exact E'|]. unfold Android.measureTextSync. by rewrite E'.
Qed.

Lemma IOS_doubleOption_OK {UIFont UIFontDescriptor : Type}
    (P : IOS.Platform UIFont UIFontDescriptor) (m : gmap string Dynamic) key def :
  (∃ x, IOS.doubleOption P m key def = OK x)
  ↔ Typing.number_like (m !! key) = true.
Proof.
  unfold IOS.doubleOption, IOS.doubleValue, Typing.number_like.
  destruct (m !! key) as [[]|]; simpl; split; eauto;
    try discriminate; intros [? ?]; discriminate.
Qed.

Lemma IOS_integerOption_OK {UIFont UIFontDescriptor : Type}
    (P : IOS.Platform UIFont UIFontDescriptor) (m : gmap string Dynamic) key def :
  (∃ x, IOS.integerOption P m key def = OK x)
  ↔ Typing.number_like (m !! key) = true.
Proof.
  unfold IOS.integerOption, IOS.integerValue, Typing.number_like.
  destruct (m !! key) as [[]|]; simpl; split; eauto;
    try discriminate; intros [? ?]; discriminate.
Qed.

Lemma IOS_parseOptions_typed {UIFont UIFontDescriptor : Type}
    (P : IOS.Platform UIFont UIFontDescriptor) (m : gmap string Dynamic) :
  (∃ o, IOS.parseOptions P m = OK o)
  ↔ Typing.number_like (m !! "fontSize") = true
    ∧ Typing.number_like (m !! "letterSpacing") = true
    ∧ Typing.number_like (m !! "lineHeight") = true
    ∧ Typing.number_like (m !! "maxWidth") = true
    ∧ Typing.number_like (m !! "maxHeight") = true
    ∧ Typing.number_like (m !! "numberOfLines") = true.
Proof.
  split.
  - intros [o H]. apply IOS_parseOptions_OK in H
      as (H1 & _ & _ & _ & H5 & H6 & H7 & H8 & H9).
    repeat split;
      first [ solve [eapply IOS_doubleOption_OK; eauto]
            | solve [eapply IOS_integerOption_OK; eauto] ].
  - intros (H1 & H5 & H6 & H7 & H8 & H9).
    apply (IOS_doubleOption_OK P _ _ 14%Q) in H1 as [x1 H1].
    apply (IOS_doubleOption_OK P _ _ 0%Q) in H5 as [x5 H5].
    apply (IOS_doubleOption_OK P _ _ 0%Q) in H6 as [x6 H6].
    apply (IOS_doubleOption_OK P _ _ 0%Q) in H7 as [x7 H7].
    apply (IOS_doubleOption_OK P _ _ 0%Q) in H8 as [x8 H8].
    apply (IOS_integerOption_OK P _ _ 0) in H9 as [x9 H9].
    unfold IOS.parseOptions.
    rewrite H1, H5, H6, H7, H8, H9. simpl. eauto.
Qed.

Lemma IOS_layoutRequest_typed {UIFont UIFontDescriptor : Type}
    (P : IOS.Platform UIFont UIFontDescriptor) text (m : gmap string Dynamic) :
  (∃ req, IOS.layoutRequest P text m = OK req) ↔ Typing.ios_options m = true.
Proof.
  unfold Typing.ios_options. rewrite !andb_true_iff. split.
  - intros [req H]. unfold IOS.layoutRequest in H.
    apply bind_OK in H as (o & Ho & H).
    apply bind_OK in H as (b & Hstyle & H).
    apply bind_OK in H as (f & Hfont & _).
    pose proof Ho as Ho'.
    apply IOS_parseOptions_OK in Ho' as (_ & Hff & _ & Hfs & _).
    assert (Hp : ∃ o, IOS.parseOptions P m = OK o) by eauto.
    apply IOS_parseOptions_typed in Hp as (H1 & H5 & H6 & H7 & H8 & H9).
    repeat split; try assumption.
    + simpl in Hstyle. rewrite Hfs in Hstyle. unfold Typing.string_or_missing.
      destruct (m !! "fontStyle") as [[]|]; simpl in Hstyle;
        done || discriminate.
    + unfold IOS.buildFont in Hfont. simpl in Hfont. rewrite Hff in Hfont.
      unfold Typing.string_or_missing.
      destruct (m !! "fontFamily") as [[]|]; simpl in Hfont;
        done || discriminate.
  - intros (((((((H1 & H5) & H6) & H7) & H8) & H9) & Hstyle) & Hfamily).
    destruct (proj2 (IOS_parseOptions_typed P m)) as [o Ho]; [done|].
    pose proof Ho as Ho'.
    apply IOS_parseOptions_OK in Ho' as (_ & Hff & _ & Hfs & _).
    assert (∃ ff, IOS.fontFamily o = DynString <$> ff) as [ff Hff'].
    { rewrite Hff. unfold Typing.string_or_missing in Hfamily.
      destruct (m !! "fontFamily") as [[]|]; try discriminate.
      - by eexists (Some _).
      - by exists None. }
    assert (∃ style, IOS.fontStyle o = DynString style) as [style Hfs'].
    { rewrite Hfs. unfold Typing.string_or_missing in Hstyle.
      destruct (m !! "fontStyle") as [[]|]; try discriminate; simpl; eauto. }
    by eapply IOS_layoutRequest_total.
Qed.

(** X11.  The iOS adapter raises on an options dictionary exactly when one
    of the six numeric options is an object that does not answer
    [doubleValue] / [integerValue] (the null object, an array, a
    dictionary), or fontStyle or fontFamily is present and not a string;
    every other dictionary reaches TextKit.  Unlike the Android module it
    reads a numeric option given as a string (through [doubleValue]) or as
    a boolean (as 0 or 1), and a fontWeight of any type, without an
    error. *)
Theorem ios_options_are_read_leniently {UIFont UIFontDescriptor : Type}
    (P : IOS.Platform UIFont UIFontDescriptor) (text : option string)
    (m : gmap string Dynamic) :
  ((∃ req, IOS.layoutRequest P text m = OK req) ↔ Typing.ios_options m = true)
  ∧ (Typing.ios_options m = false ↔
     ∃ e, IOS.RNTMPerformMeasure P text m = Throw e
          ∧ IOS.layoutRequest P text m = Throw e).
Proof.
  split; [apply IOS_layoutRequest_typed|].
  destruct (IOS.layoutRequest P text m) as [req|e] eqn:Hreq.
  - assert (Typing.ios_options m = true) as ->
      by (apply (IOS_layoutRequest_typed P text); rewrite Hreq; eauto).
    split; [discriminate|]. intros (e & _ & [=]).
  - split.
    + intros _. exists e. split; [|done].
      unfold IOS.RNTMPerformMeasure. by rewrite Hreq.
    + intros _. destruct (Typing.ios_options m) eqn:E; [|done].
      apply (IOS_layoutRequest_typed P text) in E as [req E]. congruence.
Qed.

Lemma IOS_parseOptions_ext {UIFont UIFontDescriptor : Type}
    (P : IOS.Platform UIFont UIFontDescriptor) (m1 m2 : gmap string Dynamic) :
  (∀ key, key ∈ Typing.ios_keys → m1 !! key = m2 !! key) →
  IOS.parseOptions P m1 = IOS.parseOptions P m2.
Proof.
  intros H. unfold IOS.parseOptions, IOS.doubleOption, IOS.integerOption.
  repeat match goal with
         | |- context [m1 !! ?k] => rewrite (H k) by option_key
         end.
  done.
Qed.

(** X12.  The iOS adapter reads nine keys and ignores every other one,
    [includeFontPadding] included (it is an Android-only option): two
    dictionaries that agree on the nine keys give the same result on both
    entry points. *)
Theorem ios_ignores_unknown_keys {UIFont UIFontDescriptor : Type}
    (P : IOS.Platform UIFont UIFontDescriptor) text (m1 m2 : gmap string Dynamic) :
  (∀ key, key ∈ Typing.ios_keys → m1 !! key = m2 !! key) →
  IOS.RNTMPerformMeasure P text m1 = IOS.RNTMPerformMeasure P text m2
  ∧ IOS.measureText P text (Some m1) = IOS.measureText P text (Some m2)
  ∧ IOS.measureTextSync P text (Some m1) = IOS.measureTextSync P text (Some m2).
Proof.
  intros H.
  assert (E : ∀ t, IOS.RNTMPerformMeasure P t m1 = IOS.RNTMPerformMeasure P t m2).
  { intros t. unfold IOS.RNTMPerformMeasure, IOS.layoutRequest.
    by rewrite (IOS_parseOptions_ext P m1 m2 H). }
  split; [apply E|].
  unfold IOS.measureText, IOS.measureTextSync. simpl. by rewrite !E.
Qed.

Lemma ios_ignores_unknown_keys_witness :
  IOS.measureTextSync Sample.ios (Some "Hello"%string)
    (Some {[ "fontSize" := DynNumber 20;
             "includeFontPadding" := DynBoolean false ]})
  = IOS.measureTextSync Sample.ios (Some "Hello"%string)
      (Some {[ "fontSize" := DynNumber 20 ]}).
Proof.
  apply (ios_ignores_unknown_keys Sample.ios (Some "Hello"%string)
           {[ "fontSize" := DynNumber 20;
              "includeFontPadding" := DynBoolean false ]}
           {[ "fontSize" := DynNumber 20 ]}).
  intros key Hkey.
  repeat (apply elem_of_cons in Hkey as [-> | Hkey]; [reflexivity|]).
  by apply elem_of_nil in Hkey.
Defined.

(** ** Constraints handed to the engine *)

Lemma Qgtb_false (x y : Q) : Qgtb x y = false ↔ (x <= y)%Q.
Proof.
  unfold Qgtb. rewrite negb_false_iff. apply Qle_bool_iff.
Qed.

Lemma saturate_int_range (z : Z) :
  Integer_MIN_VALUE <= saturate_int z <= Integer_MAX_VALUE
  ∧ (0 <= z → 0 <= saturate_int z).
Proof.
  unfold saturate_int, Integer_MIN_VALUE, Integer_MAX_VALUE.
  destruct (z <? _) eqn:E1; [lia|]. destruct (_ <? z) eqn:E2; lia.
Qed.

Lemma Math_round_range (x : Q) :
  Math_round x <= Integer_MAX_VALUE ∧ ((0 <= x)%Q → 0 <= Math_round x).
Proof.
  unfold Math_round. split; [apply saturate_int_range|].
  intros Hx. apply saturate_int_range.
  change 0 with (Qfloor 0). apply Qfloor_resp_le.
  apply Qle_trans with x; [done|].
  rewrite <- (Qplus_0_r x) at 1. by apply Qplus_le_r.
Qed.

Lemma Android_numberOfLines_range (m : gmap string Dynamic) (o : Android.Options) :
  Android.parseOptions m = OK o →
  Android.numberOfLines o <= Integer_MAX_VALUE.
Proof.
  intros H. apply Android_parseOptions_OK in H
    as (_ & _ & _ & _ & _ & _ & _ & _ & H & _).
  unfold Android.getInt, Android.ReadableMap_getInt, int_of_double in H.
  destruct (Android.hasKey m "numberOfLines" && _).
  - destruct (m !! "numberOfLines") as [[]|]; try discriminate.
    injection H as <-. apply saturate_int_range.
  - injection H as <-. done.
Qed.

Lemma Android_staticLayoutArgs_maxLines {Typeface : Type}
    (P : Android.Platform Typeface) text paint w lh n pad :
  Android.sl_maxLines (Android.staticLayoutArgs P text paint w lh n pad)
  = if (Android.M <=? Android.SDK_INT P) then (if 0 <? n then n else Integer_MAX_VALUE)
    else Integer_MAX_VALUE.
Proof. unfold Android.staticLayoutArgs. by destruct (_ <=? _). Qed.

(** X13.  A negative [maxWidth] or [maxHeight] is treated like 0, as no
    bound: on Android the wrap width and the height cap are
    [Integer.MAX_VALUE] and the height is never clamped, on iOS the side of
    the text container is [CGFLOAT_MAX]. *)
Theorem nonpositive_dimension_is_unbounded :
  (∀ (Typeface : Type) (P : Android.Platform Typeface) text options o req,
     Android.parseOptions (default ∅ options) = OK o →
     Android.layoutRequest P text options = OK req →
     ((Android.maxWidth o <= 0)%Q → Android.sl_width req.1 = Integer_MAX_VALUE)
     ∧ ((Android.maxHeight o <= 0)%Q →
        req.2 = Integer_MAX_VALUE
        ∧ ∀ layout, Android.measuredHeight layout req.2
                    = inject_Z (Android.getHeight layout)))
  ∧ (∀ (UIFont UIFontDescriptor : Type)
       (P : IOS.Platform UIFont UIFontDescriptor) text options o req,
     IOS.parseOptions P options = OK o →
     IOS.layoutRequest P text options = OK req →
     ((IOS.maxWidth o <= 0)%Q →
      (IOS.container_size req.2).1 = IOS.CGFLOAT_MAX)
     ∧ ((IOS.maxHeight o <= 0)%Q →
        (IOS.container_size req.2).2 = IOS.CGFLOAT_MAX)).
Proof.
  split.
  - intros Typeface P text options o req Ho Hreq.
    apply Android_layoutRequest_OK in Hreq as (o' & t & Ho' & ->).
    assert (o' = o) as -> by congruence.
    simpl. rewrite Android_staticLayoutArgs_width. split.
    + intros H. unfold Android.maxWidthPx.
      by rewrite (proj2 (Qgtb_false _ _) H).
    + intros H. unfold Android.maxHeightPx.
      by rewrite (proj2 (Qgtb_false _ _) H).
  - intros UIFont UIFontDescriptor P text options o req Ho Hreq.
    apply IOS_layoutRequest_OK in Hreq as (o' & f & Ho' & _ & ->).
    assert (o' = o) as -> by congruence.
    simpl. split; intros H; by rewrite (proj2 (Qle_bool_iff _ _) H).
Qed.

Lemma nonpositive_dimension_is_unbounded_witness :
  ∃ req,
    Android.layoutRequest Sample.android (Some "Hello"%string)
      (Some {[ "maxWidth" := DynNumber (- 5) ]}) = OK req
    ∧ Android.sl_width req.1 = 2147483647.
Proof.
  destruct (Android.parseOptions {[ "maxWidth" := DynNumber (- 5) ]})
    as [o|e] eqn:Ho; [|vm_compute in Ho; discriminate].
  destruct (Android.layoutRequest Sample.android (Some "Hello"%string)
              (Some {[ "maxWidth" := DynNumber (- 5) ]}))
    as [req|e] eqn:Hreq; [|vm_compute in Hreq; discriminate].
  exists req. split; [reflexivity|].
  destruct nonpositive_dimension_is_unbounded as [H _].
  destruct (H _ Sample.android (Some "Hello"%string)
              (Some {[ "maxWidth" := DynNumber (- 5) ]}) o req Ho Hreq)
    as [Hw _].
  apply Hw. vm_compute in Ho. injection Ho as <-. vm_compute. discriminate.
Defined.

Lemma android_request_within_bounds_aux {Typeface : Type}
    (P : Android.Platform Typeface) text options req :
  Android.layoutRequest P text options = OK req →
  (0 <= Android.density P)%Q →
  0 <= req.2 <= Integer_MAX_VALUE
  ∧ 0 <= Android.sl_width req.1 <= Integer_MAX_VALUE.
Proof.
  intros Hreq Hd.
  apply Android_layoutRequest_OK in Hreq as (o & t & Ho & ->). simpl.
  assert (Hdim : ∀ x, 0 <= (if Qgtb x 0 then Math_round (x * Android.density P)
                            else Integer_MAX_VALUE) <= Integer_MAX_VALUE).
  { intros x. destruct (Qgtb x 0) eqn:E; [|done].
    apply Qgtb_true in E. split; [|apply Math_round_range].
    apply Math_round_range. apply Qmult_le_0_compat; [|done].
    by apply Qlt_le_weak. }
  rewrite Android_staticLayoutArgs_width. split; apply Hdim.
Qed.

(** X14.  On a display of non-negative density every request the Android
    module builds is one [StaticLayout] accepts: the wrap width and the
    ellipsized width are equal and lie between 0 and [Integer.MAX_VALUE],
    the line limit is at least 1, and the height cap kept for clamping is
    not negative. *)
Theorem android_request_within_bounds {Typeface : Type}
    (P : Android.Platform Typeface) text options req :
  Android.layoutRequest P text options = OK req →
  (0 <= Android.density P)%Q →
  0 <= Android.sl_width req.1 <= Integer_MAX_VALUE
  ∧ Android.sl_ellipsizedWidth req.1 = Android.sl_width req.1
  ∧ 1 <= Android.sl_maxLines req.1 <= Integer_MAX_VALUE
  ∧ 0 <= req.2 <= Integer_MAX_VALUE.
Proof.
  intros Hreq Hd.
  apply Android_layoutRequest_OK in Hreq as (o & t & Ho & ->). simpl.
  assert (Hdim : ∀ x, 0 <= (if Qgtb x 0 then Math_round (x * Android.density P)
                            else Integer_MAX_VALUE) <= Integer_MAX_VALUE).
  { intros x. destruct (Qgtb x 0) eqn:E; [|done].
    apply Qgtb_true in E. split; [|apply Math_round_range].
    apply Math_round_range. apply Qmult_le_0_compat; [|done].
    by apply Qlt_le_weak. }
  pose proof (Android_numberOfLines_range _ _ Ho) as Hn.
  rewrite Android_staticLayoutArgs_width, Android_staticLayoutArgs_maxLines.
  split; [apply Hdim|]. split.
  { unfold Android.staticLayoutArgs. by destruct (_ <=? _). }
  split; [|apply Hdim].
  unfold Integer_MAX_VALUE in *.
  destruct ((Android.M <=? Android.SDK_INT P)); [|lia].
  destruct (0 <? Android.numberOfLines o) eqn:E; lia.
Qed.

Lemma android_request_within_bounds_witness :
  ∃ req,
    Android.layoutRequest Sample.android (Some "Hello"%string)
      (Some {[ "maxWidth" := DynNumber (1 # 10);
               "numberOfLines" := DynNumber (- 3) ]}) = OK req
    ∧ 0 <= Android.sl_width req.1 <= Integer_MAX_VALUE
    ∧ 1 <= Android.sl_maxLines req.1 <= Integer_MAX_VALUE.
Proof.
  destruct (Android.layoutRequest Sample.android (Some "Hello"%string)
              (Some {[ "maxWidth" := DynNumber (1 # 10);
                       "numberOfLines" := DynNumber (- 3) ]}))
    as [req|e] eqn:Hreq; [|vm_compute in Hreq; discriminate].
  exists req. split; [reflexivity|].
  destruct (android_request_within_bounds Sample.android _ _ req Hreq)
    as (Hw & _ & Hn & _); [vm_compute; discriminate|].
  split; assumption.
Defined.

(** X15.  Below API 23 the Android module cannot limit the number of
    lines: the deprecated [StaticLayout] constructor takes no line limit, so
    [numberOfLines] only switches end-ellipsizing on and the layout keeps
    [Integer.MAX_VALUE] lines; from API 23 a positive [numberOfLines] is the
    line limit.  Every other setting, the line spacing included, is the same
    on both paths. *)
Theorem legacy_api_has_no_line_limit {Typeface : Type}
    (old new : Android.Platform Typeface) text paint w lh n pad :
  Android.SDK_INT old < Android.M →
  Android.M <= Android.SDK_INT new →
  Android.ascent old = Android.ascent new →
  Android.descent old = Android.descent new →
  let legacy := Android.staticLayoutArgs old text paint w lh n pad in
  let builder := Android.staticLayoutArgs new text paint w lh n pad in
  Android.sl_maxLines legacy = Integer_MAX_VALUE
  ∧ Android.sl_maxLines builder
    = (if 0 <? n then n else Integer_MAX_VALUE)
  ∧ Android.sl_ellipsize legacy = Android.sl_ellipsize builder
  ∧ Android.sl_ellipsize legacy
    = (if 0 <? n then Some Android.END else None)
  ∧ legacy
    = Android.mkStaticLayoutArgs (Android.sl_text builder)
        (Android.sl_paint builder) (Android.sl_width builder)
        (Android.sl_alignment builder) (Android.sl_includePad builder)
        Integer_MAX_VALUE (Android.sl_ellipsize builder)
        (Android.sl_spacingAdd builder) (Android.sl_spacingMult builder)
        (Android.sl_ellipsizedWidth builder).
Proof.
  intros Hold Hnew Ha Hd legacy builder. subst legacy builder.
  unfold Android.staticLayoutArgs.
  assert ((Android.M <=? Android.SDK_INT old) = false) as ->
    by (apply Z.leb_gt; lia).
  assert ((Android.M <=? Android.SDK_INT new) = true) as ->
    by (apply Z.leb_le; lia).
  rewrite Ha, Hd. simpl.
  repeat split; try done.
  by destruct (Qgtb lh 0).
Qed.

Lemma legacy_api_has_no_line_limit_witness :
  let paint :=
    Android.mkTextPaint 1 28 ("sans-serif"%string, Android.NORMAL) 0 in
  let legacy :=
    Android.staticLayoutArgs Sample.android_api22 "Hello world" paint 100 0 2
      true in
  Android.sl_maxLines legacy = 2147483647
  ∧ Android.sl_ellipsize legacy = Some Android.END.
Proof.
  intros paint legacy.
  destruct (legacy_api_has_no_line_limit Sample.android_api22 Sample.android
              "Hello world"%string paint 100 0%Q 2 true)
    as (H1 & _ & _ & H4 & _);
    [vm_compute; reflexivity | vm_compute; discriminate
    | reflexivity | reflexivity |].
  split; [exact H1 | exact H4].
Defined.

(** ** Dimensions read from the layout *)

Lemma widest_line_fold (lineWidth : nat → Q) (start n : nat) (acc : Q) :
  (acc <= foldl (λ measuredWidth i,
                   if Qgtb (lineWidth i) measuredWidth then lineWidth i
                   else measuredWidth) acc (seq start n))%Q
  ∧ (∀ i, (start <= i < start + n)%nat →
          (lineWidth i
           <= foldl (λ measuredWidth i,
                       if Qgtb (lineWidth i) measuredWidth then lineWidth i
                       else measuredWidth) acc (seq start n))%Q)
  ∧ (foldl (λ measuredWidth i,
              if Qgtb (lineWidth i) measuredWidth then lineWidth i
              else measuredWidth) acc (seq start n) = acc
     ∨ ∃ i, (start <= i < start + n)%nat
            ∧ foldl (λ measuredWidth i,
                       if Qgtb (lineWidth i) measuredWidth then lineWidth i
                       else measuredWidth) acc (seq start n) = lineWidth i).
Proof.
  revert start acc. induction n as [|n IH]; intros start acc; simpl.
  - split; [apply Qle_refl|]. split; [intros i Hi; lia | by left].
  - destruct (Qgtb (lineWidth start) acc) eqn:E.
    + destruct (IH (S start) (lineWidth start)) as (Hacc & Hall & Hsome).
      apply Qgtb_true in E.
      split; [apply Qle_trans with (lineWidth start);
              [by apply Qlt_le_weak | exact Hacc]|].
      split.
      * intros i Hi. destruct (decide (i = start)) as [->|Hne]; [exact Hacc|].
        apply Hall. lia.
      * right. destruct Hsome as [Hs | (i & Hi & Hs)].
        -- exists start. split; [lia | exact Hs].
        -- exists i. split; [lia | exact Hs].
    + destruct (IH (S start) acc) as (Hacc & Hall & Hsome).
      apply Qgtb_false in E.
      split; [exact Hacc|]. split.
      * intros i Hi. destruct (decide (i = start)) as [->|Hne].
        -- by apply Qle_trans with acc.
        -- apply Hall. lia.
      * destruct Hsome as [Hs | (i & Hi & Hs)]; [by left|].
        right. exists i. split; [lia | exact Hs].
Qed.

(** X16.  The width the Android module measures is the width of the
    widest line: it is at least the width of every line of the layout, it is
    never negative, and it is either 0 or the width of one of the lines - the
    wrap width plays no part in it. *)
Theorem android_width_is_widest_line (layout : Android.Layout) :
  (0 <= Android.measuredWidth layout)%Q
  ∧ (∀ i, (i < Android.getLineCount layout)%nat →
          (Android.getLineWidth layout i <= Android.measuredWidth layout)%Q)
  ∧ (Android.measuredWidth layout = 0%Q
     ∨ ∃ i, (i < Android.getLineCount layout)%nat
            ∧ Android.measuredWidth layout = Android.getLineWidth layout i).
Proof.
  unfold Android.measuredWidth.
  destruct (widest_line_fold (Android.getLineWidth layout) 0
              (Android.getLineCount layout) 0%Q) as (H0 & Hall & Hsome).
  split; [exact H0|]. split.
  - intros i Hi. apply Hall. lia.
  - destruct Hsome as [H | (i & Hi & H)]; [by left|].
    right. exists i. split; [lia | exact H].
Qed.

Lemma Android_measuredHeight_le (layout : Android.Layout) (cap : Z) :
  (Android.measuredHeight layout cap <= inject_Z (Android.getHeight layout))%Q
  ∧ (cap ≠ Integer_MAX_VALUE →
     (Android.measuredHeight layout cap <= inject_Z cap)%Q)
  ∧ (0 <= Android.getHeight layout → 0 <= cap →
     (0 <= Android.measuredHeight layout cap)%Q).
Proof.
  unfold Android.measuredHeight.
  destruct (cap =? Integer_MAX_VALUE) eqn:Ecap; simpl.
  - apply Z.eqb_eq in Ecap. split; [apply Qle_refl|]. split; [done|].
    intros Hh _. by rewrite <- (Zle_Qle 0).
  - destruct (Qgtb _ _) eqn:E.
    + apply Qgtb_true in E. split; [by apply Qlt_le_weak|].
      split; [intros _; apply Qle_refl|].
      intros _ Hc. by rewrite <- (Zle_Qle 0).
    + apply Qgtb_false in E. split; [apply Qle_refl|]. split; [done|].
      intros Hh _. by rewrite <- (Zle_Qle 0).
Qed.

(** X18.  A successful Android measurement on a display of positive
    density never reports a negative number: the width and the line count
    are never negative, and the height is not negative whenever the height of
    the layout is not. *)
Theorem android_result_is_nonnegative {Typeface : Type}
    (P : Android.Platform Typeface) text options req layout :
  Android.layoutRequest P text options = OK req →
  Android.StaticLayout_build P req.1 = OK layout →
  (0 < Android.density P)%Q →
  ∃ r w h n,
    Android.performMeasure P text options = OK r
    ∧ r !! "width" = Some (DynNumber w) ∧ (0 <= w)%Q
    ∧ r !! "lineCount" = Some (DynNumber (inject_Z n)) ∧ 0 <= n
    ∧ r !! "height" = Some (DynNumber h)
    ∧ (0 <= Android.getHeight layout → (0 <= h)%Q).
Proof.
  intros Hreq Hlayout Hd.
  pose proof (Android_performMeasure_OK _ _ _ _ _ Hreq Hlayout) as Hr.
  destruct (android_request_within_bounds_aux P text options req Hreq)
    as [Hcap _]; [by apply Qlt_le_weak|].
  destruct (Android_result_lookup P layout req.2) as (Hw & Hh & Hn).
  destruct (Android_measuredHeight_le layout req.2) as (_ & _ & Hpos).
  assert (Hdiv : ∀ x, (0 <= x)%Q → (0 <= x / Android.density P)%Q).
  { intros x Hx. apply Qle_shift_div_l; [done|]. by rewrite Qmult_0_l. }
  eexists _, _, _, _. split; [exact Hr|].
  split; [exact Hw|]. split.
  { apply Hdiv. unfold Android.measuredWidth.
    apply (widest_line_fold (Android.getLineWidth layout) 0
             (Android.getLineCount layout) 0%Q). }
  split; [exact Hn|]. split; [lia|]. split; [exact Hh|].
  intros Hheight. apply Hdiv. apply Hpos; [exact Hheight | apply Hcap].
Qed.

Lemma android_result_is_nonnegative_witness :
  ∃ r w,
    Android.performMeasure Sample.android (Some "Hello"%string) None = OK r
    ∧ r !! "width" = Some (DynNumber w) ∧ (0 <= w)%Q.
Proof.
  destruct (Android.layoutRequest Sample.android (Some "Hello"%string) None)
    as [req|e] eqn:Hreq; [|vm_compute in Hreq; discriminate].
  destruct (Android.StaticLayout_build Sample.android req.1)
    as [layout|e] eqn:Hlayout;
    [|vm_compute in Hreq; injection Hreq as <-;
      vm_compute in Hlayout; discriminate].
  destruct (android_result_is_nonnegative Sample.android
              (Some "Hello"%string) None req layout Hreq Hlayout)
    as (r & w & h & n & Hr & Hw & Hw0 & _); [vm_compute; reflexivity|].
  exists r, w. split; [exact Hr|]. split; [exact Hw | exact Hw0].
Defined.

(** ** Shape of the results *)

(** X20.  On either platform the blocking method returns one of two
    shapes, and the shape tells the outcome: a map with exactly the keys
    width, height and lineCount, in which case the promise of [measureText]
    resolves with the same map, or a map with exactly the key error, in which
    case the promise is rejected with "MEASURE_ERROR".  No result mixes the
    two. *)
Theorem result_is_success_or_error :
  (∀ (Typeface : Type) (P : Android.Platform Typeface) text options,
     let r := Android.measureTextSync P text options in
     (dom r = ({[ "width"; "height"; "lineCount" ]} : gset string)
      ∧ Android.measureText P text options = JS.Resolved r)
     ∨ (dom r = ({[ "error" ]} : gset string)
        ∧ ∃ message, Android.measureText P text options
                     = JS.Rejected "MEASURE_ERROR" message))
  ∧ (∀ (UIFont UIFontDescriptor : Type)
       (P : IOS.Platform UIFont UIFontDescriptor) text options,
     let r := IOS.measureTextSync P text options in
     (dom r = ({[ "width"; "height"; "lineCount" ]} : gset string)
      ∧ IOS.measureText P text options = JS.Resolved r)
     ∨ (dom r = ({[ "error" ]} : gset string)
        ∧ ∃ message, IOS.measureText P text options
                     = JS.Rejected "MEASURE_ERROR" message)).
Proof.
  split.
  - intros Typeface P text options r. subst r.
    destruct (Android.performMeasure P text options) as [m|e] eqn:H.
    + left. unfold Android.measureTextSync, Android.measureText. rewrite H.
      split; [|done].
      unfold Android.performMeasure in H.
      apply bind_OK in H as (req & _ & H).
      apply bind_OK in H as (layout & _ & [= <-]).
      apply Android_result_keys.
    + right. destruct (Android_failure P text options e H) as [Ha Hs].
      rewrite Hs, Ha. split; [apply dom_singleton_L | eauto].
  - intros UIFont UIFontDescriptor P text options r. subst r.
    destruct (IOS.RNTMPerformMeasure P text (default ∅ options))
      as [m|e] eqn:H.
    + left. unfold IOS.measureTextSync, IOS.measureText.
      rewrite IOS_performMeasure_null_text, H.
      split; [|done].
      unfold IOS.RNTMPerformMeasure in H.
      apply bind_OK in H as (req & _ & H).
      apply bind_OK in H as (l & _ & [= <-]).
      apply IOS_result_keys.
    + right. destruct (IOS_failure P text options e H) as [Ha Hs].
      rewrite Hs, Ha. split; [apply dom_singleton_L | eauto].
Qed.

(** X21.  The iOS result is in whole numbers: the reported width and
    height are integers, at least the used width and height TextKit returns
    and less than one unit above them, and not negative when the used size is
    not. *)
Theorem ios_result_is_whole (l : IOS.TextKitLayout) :
  ∃ w h : Z,
    IOS.resultDictionary l !! "width" = Some (DynNumber (inject_Z w))
    ∧ IOS.resultDictionary l !! "height" = Some (DynNumber (inject_Z h))
    ∧ ((IOS.usedRect_size l).1 <= inject_Z w)%Q
    ∧ (inject_Z w < (IOS.usedRect_size l).1 + 1)%Q
    ∧ ((IOS.usedRect_size l).2 <= inject_Z h)%Q
    ∧ (inject_Z h < (IOS.usedRect_size l).2 + 1)%Q
    ∧ ((0 <= (IOS.usedRect_size l).1)%Q → 0 <= w)
    ∧ ((0 <= (IOS.usedRect_size l).2)%Q → 0 <= h).
Proof.
  destruct (IOS_result_lookup l) as (Hw & Hh & _).
  exists (Qceiling (IOS.usedRect_size l).1), (Qceiling (IOS.usedRect_size l).2).
  split; [exact Hw|]. split; [exact Hh|].
  destruct (ceil_bounds (IOS.usedRect_size l).1) as [Hw1 Hw2].
  destruct (ceil_bounds (IOS.usedRect_size l).2) as [Hh1 Hh2].
  split; [exact Hw1|]. split; [exact Hw2|].
  split; [exact Hh1|]. split; [exact Hh2|].
  split; intros H0; rewrite Zle_Qle; eapply Qle_trans; eauto.
Qed.

(** ** Font weight and style strings *)

(** X22.  For the nine numeric weights the two platforms draw the bold
    line at different tiers: the Android module selects the bold face from
    600 up, while the bold trait the iOS adapter applies to a named family
    starts at 700; the platforms disagree on "600" and on no other numeric
    weight. *)
Theorem bold_threshold_differs :
  Forall (λ sw,
            Android.isBold (Some sw.1) = OK (600 <=? sw.2)
            ∧ (∀ isItalic,
                 negb (Z.land (IOS.symbolicTraits
                                 (IOS.uiFontWeight (DynString sw.1)) isItalic)
                              IOS.UIFontDescriptorTraitBold =? 0)
                 = (700 <=? sw.2))
            ∧ ((600 <=? sw.2) ≠ (700 <=? sw.2) ↔ sw.2 = 600))
    numeric_weights.
Proof.
  forall_items
    ltac:(split; [vm_compute; reflexivity|];
          split; [intros []; vm_compute; reflexivity|];
          simpl; split; [intros H; first [reflexivity | by destruct H]
                        | intros H; first [discriminate | lia]]).
Qed.

(** X23.  The iOS adapter matches [fontWeight] and [fontStyle] exactly:
    a weight that is not, character for character, one of the eleven keys of
    [weightMap] - another case, surrounding blanks, a value that is not a
    string - silently resolves to the regular weight, and only the exact
    string "italic" is italic.  The Android module instead accepts "bold"
    and "italic" in any case. *)
Theorem ios_weight_and_style_are_exact :
  (∀ v : Dynamic,
     IOS.uiFontWeight v = IOS.UIFontWeightRegular
     ∨ ∃ s, v = DynString s ∧ s ∈ IOS.weightMap.*1)
  ∧ (∀ s, IOS.isEqualToString (DynString s) "italic" = OK true ↔ s = "italic"%string)
  ∧ IOS.uiFontWeight (DynString "Bold") = IOS.UIFontWeightRegular
  ∧ IOS.uiFontWeight (DynString " 700") = IOS.UIFontWeightRegular
  ∧ (∀ s, equalsIgnoreCase "bold" s = true → Android.isBold (Some s) = OK true)
  ∧ Android.isBold (Some "Bold"%string) = OK true
  ∧ Android.isBold (Some " 700"%string) = OK true.
Proof.
  split.
  { intros v. unfold IOS.uiFontWeight, IOS.weightMap_lookup.
    destruct v as [| |x|s| |]; try (by left).
    destruct (IOS.objectForKey IOS.weightMap s) as [w|] eqn:E; [|by left].
    right. exists s. split; [done|]. by eapply IOS_objectForKey_key. }
  split.
  { intros s. simpl. split.
    - intros [= H]. by apply String.eqb_eq in H.
    - intros ->. done. }
  split; [reflexivity|]. split; [reflexivity|].
  split; [|split; reflexivity].
  intros s H. unfold Android.isBold. by rewrite H.
Qed.

(** ** Line limit and line height left at their defaults *)

Lemma Android_staticLayoutArgs_default_spacing {Typeface : Type}
    (P : Android.Platform Typeface) text paint w lh n pad :
  Qgtb lh 0 = false →
  Android.sl_spacingAdd (Android.staticLayoutArgs P text paint w lh n pad) = 0%Q
  ∧ Android.sl_spacingMult (Android.staticLayoutArgs P text paint w lh n pad)
    = 1%Q.
Proof.
  intros H. unfold Android.staticLayoutArgs.
  destruct (_ <=? _); simpl; by rewrite H.
Qed.

Lemma Android_staticLayoutArgs_unlimited {Typeface : Type}
    (P : Android.Platform Typeface) text paint w lh n pad :
  n <= 0 →
  Android.sl_maxLines (Android.staticLayoutArgs P text paint w lh n pad)
  = Integer_MAX_VALUE
  ∧ Android.sl_ellipsize (Android.staticLayoutArgs P text paint w lh n pad)
    = None.
Proof.
  intros H. unfold Android.staticLayoutArgs.
  assert ((0 <? n) = false) as E by (apply Z.ltb_ge; lia).
  destruct (_ <=? _); simpl; by rewrite E.
Qed.

(** X24.  A [numberOfLines] or [lineHeight] that is zero or negative means
    the default on both platforms: on Android (non-negative density) the
    layout gets no line limit ([Integer.MAX_VALUE] lines), no ellipsizing,
    and the plain line spacing (add 0, multiplier 1); on iOS the text
    container gets no line limit (0) and the paragraph style no minimum or
    maximum line height. *)
Theorem nonpositive_limit_and_line_height_are_defaults :
  (∀ (Typeface : Type) (P : Android.Platform Typeface) text options o req,
     Android.parseOptions (default ∅ options) = OK o →
     Android.layoutRequest P text options = OK req →
     (Android.numberOfLines o <= 0 →
      Android.sl_maxLines req.1 = Integer_MAX_VALUE
      ∧ Android.sl_ellipsize req.1 = None)
     ∧ ((Android.lineHeight o <= 0)%Q → (0 <= Android.density P)%Q →
        Android.sl_spacingAdd req.1 = 0%Q
        ∧ Android.sl_spacingMult req.1 = 1%Q))
  ∧ (∀ (UIFont UIFontDescriptor : Type)
       (P : IOS.Platform UIFont UIFontDescriptor) text options o req,
     IOS.parseOptions P options = OK o →
     IOS.layoutRequest P text options = OK req →
     (IOS.maxLines o <= 0 → IOS.maximumNumberOfLines req.2 = 0)
     ∧ ((IOS.lineHeight o <= 0)%Q →
        IOS.minimumLineHeight (IOS.NSParagraphStyleAttributeName req.1.2) = 0%Q
        ∧ IOS.maximumLineHeight (IOS.NSParagraphStyleAttributeName req.1.2)
          = 0%Q)).
Proof.
  split.
  - intros Typeface P text options o req Ho Hreq.
    apply Android_layoutRequest_OK in Hreq as (o' & t & Ho' & ->).
    assert (o' = o) as -> by congruence. simpl fst. split.
    + apply Android_staticLayoutArgs_unlimited.
    + intros HL Hd. apply Android_staticLayoutArgs_default_spacing.
      apply Qgtb_false.
      apply Qle_trans with (0 * Android.density P)%Q;
        [by apply Qmult_le_compat_r | by rewrite Qmult_0_l].
  - intros UIFont UIFontDescriptor P text options o req Ho Hreq.
    apply IOS_layoutRequest_OK in Hreq as (o' & f & Ho' & Hattrs & Hc).
    assert (o' = o) as -> by congruence.
    rewrite Hattrs, Hc. simpl. split.
    + intros Hn. by assert ((0 <? IOS.maxLines o) = false) as ->
        by (apply Z.ltb_ge; lia).
    + intros HL. unfold IOS.paragraphStyle.
      by rewrite (proj2 (Qgtb_false _ _) HL).
Qed.

Lemma nonpositive_limit_and_line_height_are_defaults_witness :
  ∃ req,
    Android.layoutRequest Sample.android (Some "Hello"%string)
      (Some {[ "numberOfLines" := DynNumber (- 1);
               "lineHeight" := DynNumber (- 4) ]}) = OK req
    ∧ Android.sl_maxLines req.1 = 2147483647
    ∧ Android.sl_spacingAdd req.1 = 0%Q.
Proof.
  destruct (Android.parseOptions {[ "numberOfLines" := DynNumber (- 1);
                                    "lineHeight" := DynNumber (- 4) ]})
    as [o|e] eqn:Ho; [|vm_compute in Ho; discriminate].
  destruct (Android.layoutRequest Sample.android (Some "Hello"%string)
              (Some {[ "numberOfLines" := DynNumber (- 1);
                       "lineHeight" := DynNumber (- 4) ]}))
    as [req|e] eqn:Hreq; [|vm_compute in Hreq; discriminate].
  exists req. split; [reflexivity|].
  destruct nonpositive_limit_and_line_height_are_defaults as [H _].
  destruct (H _ Sample.android (Some "Hello"%string)
              (Some {[ "numberOfLines" := DynNumber (- 1);
                       "lineHeight" := DynNumber (- 4) ]}) o req Ho Hreq)
    as [Hn Hl].
  vm_compute in Ho. injection Ho as <-.
  split.
  - apply Hn. vm_compute. discriminate.
  - apply Hl; vm_compute; discriminate.
Defined.
